(** * LLM_EduChat: the conversation-history service, embedded and verified

    The development follows the layout of the repository:

    - [Py]          Python values and exceptions, and the outside world;
    - [Models]      [models.py]: the rows of [sessions] and [messages];
    - [Store]       the SQLite file behind [database.py], the queries and
                    commits the routes issue, and the monad of a request;
    - [UseApi]      [use_api.py]: the two completion clients;
    - [SessionCrud] [crud/session_crud.py];
    - [MessageCrud] [crud/message_crud.py];
    - [Main]        [main.py]: the exception handlers and the dispatch of a
                    request;
    - [Shapes]      abbreviations the statements use;
    - [Example]     one concrete environment and conversation;
    - [Replies]     endpoints whose reply is not a text, stores that fail;
    - [ChatApp]     [chat_app.py]: what the desktop client computes from the
                    answers of the service;
    - [History]     how a row may differ from its earlier self.

    What the process cannot decide by itself is collected in one record,
    [Py.Env]: the remote completion endpoint, the wall clock, the text the
    runtime prints for an exception and its traceback, the text SQLite
    keeps for a float, and the faults of the store (a lost connection, a
    locked file, a violated constraint), which may strike any statement.
    Every theorem holds for every such environment; where a theorem needs a
    statement to run, it says so. *)

From Stdlib Require Import ZArith List String Ascii Bool Lia Sorted.
From Stdlib Require Import Floats.SpecFloat.
From Stdlib Require Import DecimalString.
Import ListNotations.

Local Open Scope Z_scope.
Local Set Warnings "-register-all".

(* ================================================================== *)
(** ** Python values, exceptions, and the monad of a request *)

Module Py.

(** The values that cross the JSON boundary: request payloads, response
    bodies and the [content] of a [JSONResponse].  A dict keeps its items in
    insertion order, as Python does. *)
Inductive value : Type :=
| VNone
| VBool (b : bool)
| VInt (n : Z)
| VFloat (x : spec_float)
| VStr (s : string)
| VList (l : list value)
| VDict (items : list (string * value)).

(** [v is not None] *)
Definition is_not_None (v : value) : bool :=
  match v with
  | VNone => false
  | _ => true
  end.

Definition of_opt_str (o : option string) : value :=
  match o with Some s => VStr s | None => VNone end.

Definition of_opt_int (o : option Z) : value :=
  match o with Some n => VInt n | None => VNone end.

Definition of_opt_float (o : option spec_float) : value :=
  match o with Some x => VFloat x | None => VNone end.

(** The exception classes the [except] clauses tell apart.  [OtherError]
    stands for any other subclass of [Exception] (a timeout, a JSON syntax
    error); [what] only tells two such errors apart. *)
Inductive exn : Type :=
| HTTPException (status_code : Z) (detail : string)
| SQLAlchemyError
| IntegrityError                                        (* a SQLAlchemyError *)
| OperationalError                                      (* a SQLAlchemyError *)
| KeyError
| IndexError
| TypeError
| ClientResponseError (status : Z) (message : string)   (* aiohttp *)
| ClientError (what : string)                           (* aiohttp *)
| RequestsHTTPError (status_code : Z) (text : string)   (* requests *)
| RequestException (what : string)                      (* requests *)
| OverflowError                                         (* sqlite3: int too large *)
| OtherError (what : string).

Record JSONResponse : Type := mk_response {
  status_code : Z;
  content : value
}.

Inductive outcome (A : Type) : Type :=
| Return (a : A)
| Raise (e : exn).
Arguments Return {A} a.
Arguments Raise {A} e.

Fixpoint dict_get (items : list (string * value)) (k : string) : option value :=
  match items with
  | [] => None
  | (k', v) :: rest => if String.eqb k' k then Some v else dict_get rest k
  end.

(** [v[k]] for a string key [k]. *)
Definition getitem_key (v : value) (k : string) : outcome value :=
  match v with
  | VDict items =>
      match dict_get items k with
      | Some x => Return x
      | None => Raise KeyError
      end
  | _ => Raise TypeError
  end.

(** [v[0]].  The keys of a decoded JSON object are strings, so the integer
    key [0] is never among them; a string yields its first character. *)
Definition getitem_0 (v : value) : outcome value :=
  match v with
  | VList (x :: _) => Return x
  | VList [] => Raise IndexError
  | VStr (String c _) => Return (VStr (String c EmptyString))
  | VStr EmptyString => Raise IndexError
  | VDict _ => Raise KeyError
  | _ => Raise TypeError
  end.

(** [json.dumps(content, allow_nan=False)]: a NaN or an infinity anywhere in
    the content is refused. *)
Fixpoint finite_floats (v : value) : bool :=
  match v with
  | VFloat S754_nan => false
  | VFloat (S754_infinity _) => false
  | VList l =>
      (fix all (l : list value) : bool :=
         match l with
         | [] => true
         | x :: rest => finite_floats x && all rest
         end) l
  | VDict items =>
      (fix all (items : list (string * value)) : bool :=
         match items with
         | [] => true
         | (_, x) :: rest => finite_floats x && all rest
         end) items
  | _ => true
  end.

(** [JSONResponse(status_code=..., content=...)] renders its content when it
    is built, and raises [ValueError] when that fails. *)
Definition json_response (status : Z) (c : value) : outcome JSONResponse :=
  if finite_floats c then Return (mk_response status c)
  else Raise (OtherError "ValueError").

(** [str(n)] for an int; also the text SQLite keeps for an INTEGER. *)
Definition str_int (n : Z) : string := NilZero.string_of_int (Z.to_int n).

(** An integer SQLite can hold: signed, 64 bits.  The driver raises
    [OverflowError] when it is given any other. *)
Definition int64 (i : Z) : bool := (- 2 ^ 63 <=? i) && (i <? 2 ^ 63).

(** The statements the routes send to the store, each with the values it
    binds. *)
Inductive statement : Type :=
| SelectSession (i : Z)              (* select(Session).filter(Session.id == i) *)
| SelectActiveSessions               (* select(Session).where(Session.active == True) *)
| SelectMessage (i : Z)              (* select(Message).filter(Message.id == i) *)
| SelectMessages (sid : Z)           (* the messages of a session, not deleted *)
| CommitNewSession (nm : option string)
| CommitSessionInactive (i : Z)
| CommitMessageDeleted (i : Z)
| CommitNewMessages (sid : Z)
| RefreshSession (i : Z)
| RefreshMessage (i : Z).

(** How the store may fail a statement, by the exception SQLAlchemy raises:
    IntegrityError, OperationalError, another SQLAlchemyError, or an
    exception of some other class. *)
Inductive fault : Type :=
| IntegrityFault
| OperationalFault
| DatabaseFault
| UnexpectedFault.

Definition exn_of_fault (f : fault) : exn :=
  match f with
  | IntegrityFault => IntegrityError
  | OperationalFault => OperationalError
  | DatabaseFault => SQLAlchemyError
  | UnexpectedFault => OtherError "store"
  end.

(** An HTTP request as handed to [aiohttp] or [requests]. *)
Record http_request : Type := mk_request {
  req_url : string;
  req_headers : list (string * string);
  req_json : value
}.

(** What [await response.json()] does with the body. *)
Inductive aio_body : Type :=
| BodyJson (j : value)
| BodyContentType (message : string)   (* ContentTypeError, a
                                          ClientResponseError that carries
                                          the status of the response *)
| BodyInvalid (what : string).         (* json.JSONDecodeError *)

(** What [session.post] does. *)
Inductive aio_result : Type :=
| AioResponse (status : Z) (reason : string) (body : aio_body)
| AioClientError (what : string)       (* connection refused, reset, ... *)
| AioOtherError (what : string).       (* asyncio.TimeoutError, ... *)

(** What [response.json()] of [requests] does with the body. *)
Inductive req_body : Type :=
| RBodyJson (j : value)
| RBodyRequestException (what : string)
| RBodyOtherError (what : string).

(** What [requests.post] does. *)
Inductive req_result : Type :=
| ReqResponse (status : Z) (text : string) (body : req_body)
| ReqRequestException (what : string)
| ReqOtherError (what : string).

(** [config.py] is not part of the sources; its three constants are taken
    as they are imported. *)
Record Config : Type := mk_config {
  api_url : string;
  api_key : string;
  model_name : string
}.

Record Env : Type := mk_env {
  config : Config;
  (** the endpoint, as seen by the [n]-th asynchronous call *)
  aio_post : nat -> http_request -> aio_result;
  (** the endpoint, as seen by the synchronous client *)
  requests_post : http_request -> req_result;
  (** [datetime.utcnow()] as read when the message row with this id is
      written *)
  utcnow : Z -> Z;
  (** the text SQLite keeps for a float bound to a VARCHAR column *)
  float_text : spec_float -> string;
  (** the fault, if any, with which the store answers a statement *)
  store_fault : statement -> option fault;
  (** [str(exc)] *)
  exc_str : exn -> string;
  (** [traceback.format_exc().splitlines()] while [exc] is handled *)
  format_exc_lines : exn -> list string
}.

End Py.

(* ================================================================== *)
(** ** models.py *)

Module Models.

Record Session : Type := mk_session {
  s_id : Z;
  active : bool;
  name : option string
}.

Record Message : Type := mk_message {
  id : Z;
  session_id : Z;
  character_name : string;
  message : option string;
  timestamp : Z;
  is_deleted : bool
}.

Definition set_active (b : bool) (s : Session) : Session :=
  mk_session (s_id s) b (name s).

Definition set_is_deleted (b : bool) (m : Message) : Message :=
  mk_message (id m) (session_id m) (character_name m) (message m)
             (timestamp m) b.

(** A [Message(...)] object before it is flushed: no id, no timestamp, and a
    [message] attribute that holds whatever Python value it was given. *)
Record NewMessage : Type := mk_new {
  new_session_id : Z;
  new_character_name : string;
  new_message : Py.value
}.

End Models.

(* ================================================================== *)
(** ** The store behind database.py *)

Module Store.
Import Py Models.

(** A table is the list of its rows.  A new row takes the largest rowid
    plus one and goes last, so the list is in rowid order (see
    [reachable_wf] below), the order in which a scan without ORDER BY visits
    the table. *)
Record Database : Type := mk_db {
  sessions : list Session;
  messages : list Message
}.

Definition empty_db : Database := mk_db [] [].

(** One call of the completion endpoint, with the store as it was then. *)
Record api_call : Type := mk_call {
  call_request : http_request;
  call_store : Database
}.

Record World : Type := mk_world {
  store : Database;
  calls : list api_call
}.

Definition initial : World := mk_world empty_db [].

(** State and exceptions of one request. *)
Definition M (A : Type) : Type := World -> outcome A * World.

Definition ret {A} (a : A) : M A := fun w => (Return a, w).

Definition raise {A} (e : exn) : M A := fun w => (Raise e, w).

Definition bind {A B} (m : M A) (k : A -> M B) : M B :=
  fun w =>
    match m w with
    | (Return a, w') => k a w'
    | (Raise e, w') => (Raise e, w')
    end.

Definition lift {A} (o : outcome A) : M A := fun w => (o, w).

(** [try: body  except ...: handler] *)
Definition try_except {A} (body : M A) (handler : exn -> M A) : M A :=
  fun w =>
    match body w with
    | (Return a, w') => (Return a, w')
    | (Raise e, w') => handler e w'
    end.

Definition get_store : M Database := fun w => (Return (store w), w).

Definition put_store (db : Database) : M unit :=
  fun w => (Return tt, mk_world db (calls w)).

(** SQLite gives a new row the largest rowid of the table plus one, and 1 in
    an empty table. *)
Fixpoint max_rowid (ids : list Z) : option Z :=
  match ids with
  | [] => None
  | x :: rest =>
      match max_rowid rest with
      | None => Some x
      | Some y => Some (Z.max x y)
      end
  end.

Definition next_rowid (ids : list Z) : Z :=
  match max_rowid ids with
  | None => 1
  | Some m => m + 1
  end.

(** [await db.execute(...)], [await db.commit()], [await db.refresh(...)]:
    the store may fail the statement, and the driver refuses an integer it
    cannot hold.  [None] when the statement runs. *)
Definition refusal (env : Env) (s : statement) (params : list Z) : option exn :=
  match store_fault env s with
  | Some f => Some (exn_of_fault f)
  | None => if forallb int64 params then None else Some OverflowError
  end.

Definition execute (env : Env) (s : statement) (params : list Z) : M unit :=
  fun w =>
    match refusal env s params with
    | Some e => (Raise e, w)
    | None => (Return tt, w)
    end.

(** [select(Session).filter(Session.id == i)] ... [.scalars().first()] *)
Definition first_session (env : Env) (i : Z) : M (option Session) :=
  bind (execute env (SelectSession i) [i]) (fun _ =>
  bind get_store (fun db =>
  ret (find (fun s => s_id s =? i) (sessions db)))).

(** [select(Message).filter(Message.id == i)] ... [.scalars().first()] *)
Definition first_message (env : Env) (i : Z) : M (option Message) :=
  bind (execute env (SelectMessage i) [i]) (fun _ =>
  bind get_store (fun db =>
  ret (find (fun m => id m =? i) (messages db)))).

(** [select(Session).where(Session.active == True)] ... [.scalars().all()] *)
Definition all_active_sessions (env : Env) : M (list Session) :=
  bind (execute env SelectActiveSessions []) (fun _ =>
  bind get_store (fun db =>
  ret (filter (fun s => Bool.eqb (active s) true) (sessions db)))).

(** [select(Message).where(Message.session_id == sid,
    Message.is_deleted == False)] ... [.scalars().all()] *)
Definition live_message (sid : Z) (m : Message) : bool :=
  (session_id m =? sid) && Bool.eqb (is_deleted m) false.

Definition all_live_messages (env : Env) (sid : Z) : M (list Message) :=
  bind (execute env (SelectMessages sid) [sid]) (fun _ =>
  bind get_store (fun db =>
  ret (filter (live_message sid) (messages db)))).

(** [db.add(Session(active=True, name=name)); commit; refresh]: a commit
    that fails stores nothing, a refresh that fails comes after the row is
    stored. *)
Definition commit_new_session (env : Env) (nm : option string) : M Session :=
  bind (execute env (CommitNewSession nm) []) (fun _ =>
  bind get_store (fun db =>
  let s := mk_session (next_rowid (map s_id (sessions db))) true nm in
  bind (put_store (mk_db (sessions db ++ [s]) (messages db))) (fun _ =>
  bind (execute env (RefreshSession (s_id s)) []) (fun _ =>
  ret s)))).

(** [session.active = False; commit]: UPDATE sessions SET active=0 WHERE
    sessions.id = ? *)
Definition commit_session_inactive (env : Env) (s : Session) : M unit :=
  bind (execute env (CommitSessionInactive (s_id s)) [s_id s]) (fun _ =>
  bind get_store (fun db =>
  put_store
    (mk_db (map (fun r => if s_id r =? s_id s then set_active false r else r)
                (sessions db))
           (messages db)))).

(** [message.is_deleted = True; commit]: UPDATE messages SET is_deleted=1
    WHERE messages.id = ? *)
Definition commit_message_deleted (env : Env) (m : Message) : M unit :=
  bind (execute env (CommitMessageDeleted (id m)) [id m]) (fun _ =>
  bind get_store (fun db =>
  put_store
    (mk_db (sessions db)
           (map (fun r => if id r =? id m then set_is_deleted true r else r)
                (messages db))))).

(** How a Python value is bound to the VARCHAR column [messages.message].
    Text and NULL go in as they are.  A bool is an int for the driver; an
    int that SQLite can hold is kept as its decimal text and any other makes
    the driver raise [OverflowError]; NaN is stored as NULL and any other
    float as text.  A list or a dict is refused by the driver with an error
    that SQLAlchemy wraps. *)
Definition bind_text (env : Env) (v : value) : outcome (option string) :=
  match v with
  | VNone => Return None
  | VStr s => Return (Some s)
  | VBool b => Return (Some (if b then "1" else "0")%string)
  | VInt n => if int64 n then Return (Some (str_int n)) else Raise OverflowError
  | VFloat S754_nan => Return None
  | VFloat x => Return (Some (float_text env x))
  | VList _ | VDict _ => Raise SQLAlchemyError
  end.

(** INSERT INTO messages: the row a flushed [Message(...)] becomes, unless
    the driver refuses one of its values.  No foreign key is enforced:
    [database.py] never issues PRAGMA foreign_keys. *)
Definition insert_message (env : Env) (rows : list Message) (n : NewMessage)
  : outcome Message :=
  if int64 (new_session_id n)
  then match bind_text env (new_message n) with
       | Raise e => Raise e
       | Return txt =>
           let i := next_rowid (map id rows) in
           Return (mk_message i (new_session_id n) (new_character_name n) txt
                              (utcnow env i) false)
       end
  else Raise OverflowError.

(** [db.add(n1); db.add(n2); commit; refresh(n2); refresh(n1)]: the two
    INSERTs run in the order of the [add]s inside one transaction, which is
    rolled back as a whole when one of them is refused or the commit fails;
    a refresh that fails comes after the rows are stored.  Returns the two
    rows as refreshed. *)
Definition commit_new_messages (env : Env) (n1 n2 : NewMessage)
  : M (Message * Message) :=
  bind (execute env (CommitNewMessages (new_session_id n1)) []) (fun _ =>
  bind get_store (fun db =>
  bind (lift (insert_message env (messages db) n1)) (fun r1 =>
  bind (lift (insert_message env (messages db ++ [r1]) n2)) (fun r2 =>
  bind (put_store (mk_db (sessions db) (messages db ++ [r1; r2]))) (fun _ =>
  bind (execute env (RefreshMessage (id r2)) []) (fun _ =>
  bind (execute env (RefreshMessage (id r1)) []) (fun _ =>
  ret (r1, r2)))))))).

End Store.

Declare Scope py_scope.
Notation "x <- m ;; k" := (Store.bind m (fun x => k))
  (at level 61, m at next level, right associativity) : py_scope.
Notation "m ;;; k" := (Store.bind m (fun _ => k))
  (at level 61, right associativity) : py_scope.

Local Open Scope py_scope.

(* ================================================================== *)
(** ** use_api.py *)

Module UseApi.
Import Py Models Store.

Definition headers (api_key : string) : list (string * string) :=
  [("Content-Type", "application/json");
   ("Authorization", "Bearer " ++ api_key)]%string.

(** The dict literal [payload = {...}]. *)
Definition payload_literal (model : string) (messages : list value)
    (temperature : option spec_float) (max_tokens : option Z)
    (top_p frequency_penalty presence_penalty : option spec_float)
  : list (string * value) :=
  [("model", VStr model);
   ("messages", VList messages);
   ("temperature", of_opt_float temperature);
   ("max_tokens", of_opt_int max_tokens);
   ("top_p", of_opt_float top_p);
   ("frequency_penalty", of_opt_float frequency_penalty);
   ("presence_penalty", of_opt_float presence_penalty)]%string.

(** [{k: v for k, v in payload.items() if v is not None}] *)
Definition remove_None (items : list (string * value)) : list (string * value) :=
  filter (fun kv => is_not_None (snd kv)) items.

Definition payload (model : string) (messages : list value)
    (temperature : option spec_float) (max_tokens : option Z)
    (top_p frequency_penalty presence_penalty : option spec_float)
  : list (string * value) :=
  remove_None (payload_literal model messages temperature max_tokens top_p
                               frequency_penalty presence_penalty).

(** [requests.post(url, json=payload, headers=headers)], then
    [raise_for_status()] (400 <= status < 600), then [response.json()]. *)
Definition requests_round_trip (env : Env) (rq : http_request) : M value :=
  fun w =>
    let w' := mk_world (store w) (calls w ++ [mk_call rq (store w)]) in
    match requests_post env rq with
    | ReqResponse status text body =>
        if (400 <=? status) && (status <? 600)
        then (Raise (RequestsHTTPError status text), w')
        else match body with
             | RBodyJson j => (Return j, w')
             | RBodyRequestException what => (Raise (RequestException what), w')
             | RBodyOtherError what => (Raise (OtherError what), w')
             end
    | ReqRequestException what => (Raise (RequestException what), w')
    | ReqOtherError what => (Raise (OtherError what), w')
    end.

Definition call_openai_chat_api (env : Env) (model : string)
    (messages : list value) (api_key : string)
    (temperature : option spec_float) (max_tokens : option Z)
    (top_p frequency_penalty presence_penalty : option spec_float)
  : M value :=
  let url := api_url (config env) in
  let rq := mk_request url (headers api_key)
              (VDict (payload model messages temperature max_tokens top_p
                              frequency_penalty presence_penalty)) in
  try_except (requests_round_trip env rq)
    (fun e =>
       match e with
       | RequestsHTTPError status text => raise (HTTPException status text)
       | RequestException _ =>
           raise (HTTPException 400
                    ("API 请求异常: " ++ model ++ ", 错误信息: " ++ exc_str env e))
       | _ =>
           raise (HTTPException 500
                    ("未预期的错误: " ++ model ++ ", 错误信息: " ++ exc_str env e))
       end%string).

(** [session.post(url, json=payload, headers=headers)], then
    [raise_for_status()] (status >= 400), then [await response.json()]. *)
Definition aiohttp_round_trip (env : Env) (rq : http_request) : M value :=
  fun w =>
    let w' := mk_world (store w) (calls w ++ [mk_call rq (store w)]) in
    match aio_post env (List.length (calls w)) rq with
    | AioResponse status reason body =>
        if 400 <=? status
        then (Raise (ClientResponseError status reason), w')
        else match body with
             | BodyJson j => (Return j, w')
             | BodyContentType msg =>
                 (Raise (ClientResponseError status msg), w')
             | BodyInvalid what => (Raise (OtherError what), w')
             end
    | AioClientError what => (Raise (ClientError what), w')
    | AioOtherError what => (Raise (OtherError what), w')
    end.

Definition async_call_openai_chat_api (env : Env) (model : string)
    (messages : list value) (api_key : string)
    (temperature : option spec_float) (max_tokens : option Z)
    (top_p frequency_penalty presence_penalty : option spec_float)
  : M value :=
  let url := api_url (config env) in
  let rq := mk_request url (headers api_key)
              (VDict (payload model messages temperature max_tokens top_p
                              frequency_penalty presence_penalty)) in
  try_except (aiohttp_round_trip env rq)
    (fun e =>
       match e with
       | ClientResponseError status msg => raise (HTTPException status msg)
       | ClientError _ =>
           raise (HTTPException 400
                    ("API 请求异常: " ++ model ++ ", 错误信息: " ++ exc_str env e))
       | _ =>
           raise (HTTPException 500
                    ("未预期的错误: " ++ model ++ ", 错误信息: " ++ exc_str env e))
       end%string).

End UseApi.

(* ================================================================== *)
(** ** crud/session_crud.py *)

Module SessionCrud.
Import Py Models Store.

Definition create_session (env : Env) (nm : option string) : M JSONResponse :=
  try_except
    (new_session <- commit_new_session env nm ;;
     lift (json_response 201
            (VDict [("message", VStr "创建会话成功");
                    ("session_id", VInt (s_id new_session));
                    ("session_name", of_opt_str (name new_session))]%string)))
    (fun e =>
       match e with
       | IntegrityError => raise (HTTPException 400 "提供的数据违反了完整性约束")
       | SQLAlchemyError | OperationalError =>
           raise (HTTPException 500 "数据库查询执行失败")
       | _ => raise (HTTPException 500 "未知错误")
       end).

Definition session_item (s : Session) : value :=
  VDict [("session_id", VInt (s_id s));
         ("session_name", of_opt_str (name s))]%string.

Definition list_sessions (env : Env) : M JSONResponse :=
  try_except
    (sessions <- all_active_sessions env ;;
     lift (json_response 200
            (VDict [("message", VStr "获取所有会话id成功");
                    ("sessions", VList (map session_item sessions))]%string)))
    (fun e =>
       match e with
       | OperationalError => raise (HTTPException 503 "数据库服务不可用")
       | SQLAlchemyError | IntegrityError =>
           raise (HTTPException 500 "数据库查询执行失败")
       | _ => raise (HTTPException 500 "未知错误")
       end).

Definition delete_session (env : Env) (session_id : Z) : M JSONResponse :=
  try_except
    (session <- first_session env session_id ;;
     match session with
     | None => raise (HTTPException 404 "会话ID不存在")
     | Some session =>
         commit_session_inactive env session ;;;
         lift (json_response 200
                (VDict [("message", VStr "会话已成功删除")]%string))
     end)
    (fun e =>
       match e with
       | HTTPException _ _ => raise e
       | SQLAlchemyError | IntegrityError | OperationalError =>
           raise (HTTPException 500 "数据库查询执行失败")
       | _ => raise (HTTPException 500 "删除会话失败")
       end).

End SessionCrud.

(* ================================================================== *)
(** ** crud/message_crud.py *)

Module MessageCrud.
Import Py Models Store UseApi.

Record ChatSchema : Type := mk_chat {
  chat_session_id : Z;
  user_message : string
}.

(** [{"role": "system" if msg.character_name == "assistant" else "user",
      "content": msg.message}] *)
Definition history_entry (msg : Message) : value :=
  VDict [("role",
          VStr (if String.eqb (character_name msg) "assistant"
                then "system" else "user"));
         ("content", of_opt_str (message msg))]%string.

(** [response['choices'][0]['message']['content']] *)
Definition reply_content (response : value) : outcome value :=
  match getitem_key response "choices" with
  | Raise e => Raise e
  | Return choices =>
      match getitem_0 choices with
      | Raise e => Raise e
      | Return choice =>
          match getitem_key choice "message" with
          | Raise e => Raise e
          | Return msg => getitem_key msg "content"
          end
      end
  end.

Definition chat_with_openai (env : Env) (chat_schema : ChatSchema)
  : M JSONResponse :=
  try_except
    (messages <- all_live_messages env (chat_session_id chat_schema) ;;
     let chat_history :=
       map history_entry messages
       ++ [VDict [("role", VStr "user");
                  ("content", VStr (user_message chat_schema))]%string] in
     response <- async_call_openai_chat_api env (model_name (config env))
                   chat_history (api_key (config env))
                   None None None None None ;;
     ai_message <- lift (reply_content response) ;;
     let user_message_ :=
       mk_new (chat_session_id chat_schema) "user"
              (VStr (user_message chat_schema)) in
     let ai_message_ :=
       mk_new (chat_session_id chat_schema) "assistant" ai_message in
     rows <- commit_new_messages env user_message_ ai_message_ ;;
     lift (json_response 200
            (VDict [("message", VStr "获取回答成功");
                    ("ai_message_id", VInt (id (snd rows)));
                    ("user_message_id", VInt (id (fst rows)));
                    ("response", ai_message);
                    ("character_name", VStr "assistant")]%string)))
    (fun e =>
       match e with
       | HTTPException _ _ => raise e
       | SQLAlchemyError | IntegrityError | OperationalError | KeyError =>
           raise (HTTPException 500 "数据库操作或API调用失败")
       | _ => raise (HTTPException 500 "与OpenAI通信时发生未知错误")
       end).

Definition message_item (m : Message) : value :=
  VDict [("id", VInt (id m));
         ("character_name", VStr (character_name m));
         ("message", of_opt_str (message m))]%string.

Definition get_messages (env : Env) (session_id : Z) : M JSONResponse :=
  try_except
    (session_exists <- first_session env session_id ;;
     match session_exists with
     | None => raise (HTTPException 404 "会话ID不存在")
     | Some _ =>
         messages <- all_live_messages env session_id ;;
         lift (json_response 200
                (VDict [("message", VStr "获取指定会话中的所有消息成功");
                        ("messages", VList (map message_item messages))]%string))
     end)
    (fun e =>
       match e with
       | HTTPException _ _ => raise e
       | SQLAlchemyError | IntegrityError | OperationalError =>
           raise (HTTPException 500 "数据库查询消息失败")
       | _ => raise (HTTPException 500 "未知错误")
       end).

Definition delete_message (env : Env) (message_id : Z) : M JSONResponse :=
  try_except
    (message <- first_message env message_id ;;
     match message with
     | None => raise (HTTPException 404 "消息ID不存在")
     | Some message =>
         (if is_deleted message
          then ret tt                      (* only logs the repeated delete *)
          else commit_message_deleted env message) ;;;
         lift (json_response 200
                (VDict [("message", VStr "消息已成功删除")]%string))
     end)
    (fun e =>
       match e with
       | HTTPException _ _ => raise e
       | SQLAlchemyError | IntegrityError | OperationalError =>
           raise (HTTPException 500 "数据库删除消息失败")
       | _ => raise (HTTPException 500 "未知错误")
       end).

End MessageCrud.

(* ================================================================== *)
(** ** main.py *)

Module Main.
Import Py Models Store SessionCrud MessageCrud.

Definition exception_detail (env : Env) (exc : exn) : value :=
  VList (map VStr (format_exc_lines env exc)).

(** Registered for [SQLAlchemyError]. *)
Definition sqlalchemy_exception_handler (env : Env) (exc : exn) : JSONResponse :=
  mk_response 500
    (VDict [("message",
             VStr ("内部服务器错误，无法完成数据库操作" ++ exc_str env exc));
            ("exception_detail", exception_detail env exc)]%string).

(** Registered for [HTTPException]; [exc] is [HTTPException status detail]. *)
Definition http_exception_handler (env : Env) (status : Z) (detail : string)
  : JSONResponse :=
  mk_response status
    (VDict [("message", VStr ("服务器错误" ++ detail));
            ("exception_detail",
             exception_detail env (HTTPException status detail))]%string).

(** Registered for [Exception]; the source names this second function
    [http_exception_handler] as well. *)
Definition exception_handler (env : Env) (exc : exn) : JSONResponse :=
  mk_response 500
    (VDict [("message", VStr ("服务器未知错误" ++ exc_str env exc));
            ("exception_detail", exception_detail env exc)]%string).

(** The handler the application picks for an exception that leaves a route. *)
Definition handle_exception (env : Env) (exc : exn) : JSONResponse :=
  match exc with
  | HTTPException status detail => http_exception_handler env status detail
  | SQLAlchemyError | IntegrityError | OperationalError =>
      sqlalchemy_exception_handler env exc
  | _ => exception_handler env exc
  end.

(** The six routes mounted under [/api]. *)
Inductive request : Type :=
| PostSessions (name : option string)
| GetSessions
| DeleteSessions (session_id : Z)
| PostChat (chat_schema : ChatSchema)
| GetMessages (session_id : Z)
| DeleteMessages (message_id : Z).

Definition route (env : Env) (r : request) : M JSONResponse :=
  match r with
  | PostSessions nm => create_session env nm
  | GetSessions => list_sessions env
  | DeleteSessions i => delete_session env i
  | PostChat c => chat_with_openai env c
  | GetMessages i => get_messages env i
  | DeleteMessages i => delete_message env i
  end.

(** What the caller of the application receives. *)
Definition app (env : Env) (r : request) (w : World) : JSONResponse * World :=
  match route env r w with
  | (Return response, w') => (response, w')
  | (Raise exc, w') => (handle_exception env exc, w')
  end.

(** The world after a sequence of requests. *)
Fixpoint run (env : Env) (rs : list request) (w : World) : World :=
  match rs with
  | [] => w
  | r :: rest => run env rest (snd (app env r w))
  end.

End Main.

(* ================================================================== *)
(** ** Abbreviations used in the statements *)

Module Shapes.
Import Py Models Store UseApi SessionCrud MessageCrud Main.

Definition deleted_ok : JSONResponse :=
  mk_response 200 (VDict [("message", VStr "消息已成功删除")]%string).

Definition mark_deleted (message_id : Z) (rows : list Message) : list Message :=
  map (fun r => if id r =? message_id then set_is_deleted true r else r) rows.

Definition messages_ok (rows : list Message) : JSONResponse :=
  mk_response 200
    (VDict [("message", VStr "获取指定会话中的所有消息成功");
            ("messages", VList (map message_item rows))]%string).

Definition sessions_ok (rows : list Session) : JSONResponse :=
  mk_response 200
    (VDict [("message", VStr "获取所有会话id成功");
            ("sessions", VList (map session_item rows))]%string).

Definition session_deleted_ok : JSONResponse :=
  mk_response 200 (VDict [("message", VStr "会话已成功删除")]%string).

Definition mark_inactive (sid : Z) (rows : list Session) : list Session :=
  map (fun r => if s_id r =? sid then set_active false r else r) rows.

(** The history a chat turn builds from the store. *)
Definition chat_history (c : ChatSchema) (db : Database) : list value :=
  map history_entry
      (filter (live_message (chat_session_id c)) (messages db))
  ++ [VDict [("role", VStr "user");
             ("content", VStr (user_message c))]%string].

(** The request a chat turn hands to the completion client. *)
Definition chat_request (env : Env) (c : ChatSchema) (db : Database)
  : http_request :=
  mk_request (api_url (config env)) (headers (api_key (config env)))
    (VDict (payload (model_name (config env)) (chat_history c db)
                    None None None None None)).

(** The world once the completion client has been called. *)
Definition after_call (env : Env) (c : ChatSchema) (w : World) : World :=
  mk_world (store w)
           (calls w ++ [mk_call (chat_request env c (store w)) (store w)]).

(** The assistant's reply of a chat turn: the client's answer, then the
    lookup of [choices[0].message.content] in it. *)
Definition upstream_reply (env : Env) (c : ChatSchema) (w : World)
  : outcome value :=
  match fst (async_call_openai_chat_api env (model_name (config env))
               (chat_history c (store w)) (api_key (config env))
               None None None None None w) with
  | Return response => reply_content response
  | Raise e => Raise e
  end.

(** The [except] clauses of [chat_with_openai]. *)
Definition chat_except (e : exn) : exn :=
  match e with
  | HTTPException _ _ => e
  | SQLAlchemyError | IntegrityError | OperationalError | KeyError =>
      HTTPException 500 "数据库操作或API调用失败"
  | _ => HTTPException 500 "与OpenAI通信时发生未知错误"
  end.

Definition chat_ok (u a : Message) (ai_message : value) : value :=
  VDict [("message", VStr "获取回答成功");
         ("ai_message_id", VInt (id a));
         ("user_message_id", VInt (id u));
         ("response", ai_message);
         ("character_name", VStr "assistant")]%string.

(** What an entry of a listing of messages shows: the id, the character
    name and the text (null when the row has none). *)
Definition shown_message (m : Message) : value :=
  VDict [("id", VInt (id m));
         ("character_name", VStr (character_name m));
         ("message", match message m with
                     | Some text => VStr text
                     | None => VNone
                     end)]%string.

(** What an entry of a listing of sessions shows: the id and the name (null
    when the session has none). *)
Definition shown_session (s : Session) : value :=
  VDict [("session_id", VInt (s_id s));
         ("session_name", match name s with
                          | Some text => VStr text
                          | None => VNone
                          end)]%string.

(** What the completion client is sent for a stored message: role "system"
    for the character name "assistant" and role "user" for any other, with
    the text as content. *)
Definition sent_message (m : Message) : value :=
  VDict [("role", VStr (if String.eqb (character_name m) "assistant"
                        then "system" else "user"));
         ("content", match message m with
                     | Some text => VStr text
                     | None => VNone
                     end)]%string.

(** [x] is what the body [j] of a completion holds at
    [choices[0].message.content]. *)
Definition completion_content (j x : value) : Prop :=
  exists items choice rest msg,
    j = VDict items
    /\ dict_get items "choices" = Some (VList (VDict choice :: rest))
    /\ dict_get choice "message" = Some (VDict msg)
    /\ dict_get msg "content" = Some x.

(** A call of the completion endpoint that fails, with the status the
    caller of the chat route is to see: 400 when no response arrives for a
    reason the HTTP library knows, 500 for any other reason; the status of
    the response when it is 400 or more; 500 when the body of a response
    below 400 is not JSON, or is JSON without
    [choices[0].message.content]. *)
Inductive failed_call : aio_result -> Z -> Prop :=
| failed_connection (what : string) :
    failed_call (AioClientError what) 400
| failed_otherwise (what : string) :
    failed_call (AioOtherError what) 500
| failed_status (status : Z) (reason : string) (body : aio_body) :
    400 <= status ->
    failed_call (AioResponse status reason body) status
| failed_not_json (status : Z) (reason what : string) :
    status < 400 ->
    failed_call (AioResponse status reason (BodyInvalid what)) 500
| failed_no_content (status : Z) (reason : string) (j : value) :
    status < 400 ->
    (forall x, ~ completion_content j x) ->
    failed_call (AioResponse status reason (BodyJson j)) 500.

(** A store that fails no statement. *)
Definition reliable (env : Env) : Prop :=
  forall s, store_fault env s = None.

(** The [except] clauses of the other routes. *)
Definition create_session_except (e : exn) : exn :=
  match e with
  | IntegrityError => HTTPException 400 "提供的数据违反了完整性约束"
  | SQLAlchemyError | OperationalError => HTTPException 500 "数据库查询执行失败"
  | _ => HTTPException 500 "未知错误"
  end.

Definition list_sessions_except (e : exn) : exn :=
  match e with
  | OperationalError => HTTPException 503 "数据库服务不可用"
  | SQLAlchemyError | IntegrityError => HTTPException 500 "数据库查询执行失败"
  | _ => HTTPException 500 "未知错误"
  end.

Definition delete_session_except (e : exn) : exn :=
  match e with
  | HTTPException _ _ => e
  | SQLAlchemyError | IntegrityError | OperationalError =>
      HTTPException 500 "数据库查询执行失败"
  | _ => HTTPException 500 "删除会话失败"
  end.

Definition get_messages_except (e : exn) : exn :=
  match e with
  | HTTPException _ _ => e
  | SQLAlchemyError | IntegrityError | OperationalError =>
      HTTPException 500 "数据库查询消息失败"
  | _ => HTTPException 500 "未知错误"
  end.

Definition delete_message_except (e : exn) : exn :=
  match e with
  | HTTPException _ _ => e
  | SQLAlchemyError | IntegrityError | OperationalError =>
      HTTPException 500 "数据库删除消息失败"
  | _ => HTTPException 500 "未知错误"
  end.

(** The rows a chat turn writes: the user's text, then the reply as the
    column keeps it. *)
Definition user_row_of (env : Env) (c : ChatSchema) (rows : list Message)
  : Message :=
  let i := next_rowid (map id rows) in
  mk_message i (chat_session_id c) "user" (Some (user_message c))
             (utcnow env i) false.

Definition assistant_row_of (env : Env) (c : ChatSchema) (rows : list Message)
           (text : option string) : Message :=
  let i := next_rowid (map id rows) in
  mk_message i (chat_session_id c) "assistant" text (utcnow env i) false.

(** Primary keys: both tables are in strictly increasing rowid order. *)
Definition wf_db (db : Database) : Prop :=
  StronglySorted Z.lt (map s_id (sessions db))
  /\ StronglySorted Z.lt (map id (messages db)).

(** The reading of "an id that matches nothing is answered with
    NotFound", for the three routes that look a row up. *)
Definition unknown_session_is_not_found (env : Env) : Prop :=
  forall sid w,
    (forall s, In s (sessions (store w)) -> s_id s <> sid) ->
    fst (get_messages env sid w) = Raise (HTTPException 404 "会话ID不存在").

Definition unknown_message_is_not_found (env : Env) : Prop :=
  forall message_id w,
    (forall m, In m (messages (store w)) -> id m <> message_id) ->
    fst (delete_message env message_id w)
    = Raise (HTTPException 404 "消息ID不存在").

Definition unknown_session_is_not_deleted (env : Env) : Prop :=
  forall sid w,
    (forall s, In s (sessions (store w)) -> s_id s <> sid) ->
    fst (delete_session env sid w) = Raise (HTTPException 404 "会话ID不存在").

(** The reading of "a failed call of the completion client is reported as
    an error": whenever the client raises in a chat turn, the caller is
    answered with an error status. *)
Definition failed_call_answers_error (env : Env) : Prop :=
  forall c w e,
    refusal env (SelectMessages (chat_session_id c)) [chat_session_id c]
    = None ->
    fst (async_call_openai_chat_api env (model_name (config env))
           (chat_history c (store w)) (api_key (config env))
           None None None None None w) = Raise e ->
    400 <= status_code (fst (app env (PostChat c) w)).


End Shapes.

(* ================================================================== *)
(** ** A concrete environment *)

Module Example.
Import Py Models Store MessageCrud Main.

(** A completion as the endpoint returns it. *)
Definition completion (txt : string) : value :=
  VDict [("choices",
          VList [VDict [("index", VInt 0);
                        ("message",
                         VDict [("role", VStr "assistant");
                                ("content", VStr txt)])]])]%string.

Definition traceback : list string :=
  ["Traceback (most recent call last):";
   "  File crud/message_crud.py, line 96, in get_messages";
   "    raise HTTPException(status_code=404, detail=...)";
   "fastapi.exceptions.HTTPException: 404"]%string.

Definition env (endpoint : aio_result) : Env :=
  mk_env (mk_config "https://api.example/v1/chat/completions" "sk-test"
                    "gpt-3.5-turbo")
         (fun _ _ => endpoint)
         (fun _ => ReqRequestException "unreachable")
         (fun i => 1700000000 + i)
         (fun _ => "Inf"%string)
         (fun _ => None)
         (fun _ => "error"%string)
         (fun _ => traceback).

Definition answering (txt : string) : Env :=
  env (AioResponse 200 "OK" (BodyJson (completion txt))).

Definition unavailable : Env :=
  env (AioResponse 503 "Service Unavailable" (BodyJson VNone)).

Definition hello : ChatSchema := mk_chat 1 "hello".

(** One session named Test, and one turn in it. *)
Definition one_turn : list request :=
  [PostSessions (Some "Test"%string); PostChat hello].

Definition user_row : Message :=
  mk_message 1 1 "user" (Some "hello"%string) 1700000001 false.

Definition assistant_row : Message :=
  mk_message 2 1 "assistant" (Some "world"%string) 1700000002 false.

End Example.

(* ================================================================== *)
(** ** Other environments *)

Module Replies.
Import Py Models Store MessageCrud Main.

(** A completion whose content is [x]. *)
Definition completion_of (x : value) : value :=
  VDict [("choices",
          VList [VDict [("message", VDict [("content", x)])]])]%string.

(** The JSON token Infinity, which [json.loads] accepts. *)
Definition infinity : value := VFloat (S754_infinity false).

Definition answering_infinity : Env :=
  Example.env (AioResponse 200 "OK" (BodyJson (completion_of infinity))).

Definition answering_nan : Env :=
  Example.env (AioResponse 200 "OK" (BodyJson (completion_of (VFloat S754_nan)))).

Definition answering_list : Env :=
  Example.env (AioResponse 200 "OK"
                 (BodyJson (completion_of (VList [VStr "world"])))).

Definition answering_big_int : Env :=
  Example.env (AioResponse 200 "OK" (BodyJson (completion_of (VInt (2 ^ 63))))).

Definition answering_empty_object : Env :=
  Example.env (AioResponse 200 "OK" (BodyJson (VDict []))).

(** The endpoint answers 200 with a page served as text/html, to both
    clients. *)
Definition wrong_mimetype : Env :=
  mk_env (mk_config "https://api.example/v1/chat/completions" "sk-test"
                    "gpt-3.5-turbo")
         (fun _ _ =>
            AioResponse
              200 "OK"
              (BodyContentType
                 "Attempt to decode JSON with unexpected mimetype: text/html"))
         (fun _ =>
            ReqResponse
              200 "<html></html>"
              (RBodyRequestException
                 "Expecting value: line 1 column 1 (char 0)"))
         (fun i => 1700000000 + i)
         (fun _ => "Inf"%string)
         (fun _ => None)
         (fun _ => "error"%string)
         (fun _ => Example.traceback).

(** As [Example.answering "world"], with a store that fails the statements
    [faults] names. *)
Definition faulty (faults : statement -> option fault) : Env :=
  mk_env (mk_config "https://api.example/v1/chat/completions" "sk-test"
                    "gpt-3.5-turbo")
         (fun _ _ => AioResponse 200 "OK" (BodyJson (Example.completion "world")))
         (fun _ => ReqRequestException "unreachable")
         (fun i => 1700000000 + i)
         (fun _ => "Inf"%string)
         faults
         (fun _ => "error"%string)
         (fun _ => Example.traceback).

(** The connection is lost whenever the sessions are listed. *)
Definition listing_unavailable (s : statement) : option fault :=
  match s with
  | SelectActiveSessions => Some OperationalFault
  | _ => None
  end.

(** Every new session violates a constraint. *)
Definition sessions_refused (s : statement) : option fault :=
  match s with
  | CommitNewSession _ => Some IntegrityFault
  | _ => None
  end.

End Replies.

(* ================================================================== *)
(** ** chat_app.py: the client's side of the answers *)

Module ChatApp.
Import Py Models Store.
Local Open Scope string_scope.

(** What an f-string prints for a value.  The text of a float and of a list
    or dict is left to [other]. *)
Definition format (other : value -> string) (v : value) : string :=
  match v with
  | VNone => "None"
  | VBool true => "True"
  | VBool false => "False"
  | VInt n => str_int n
  | VStr s => s
  | _ => other v
  end.

(** [s.split(sep)] for a separator that is not empty: the pieces between
    the occurrences of [sep], found from the left without overlap.  [skip]
    counts the characters of a separator still to be passed over and [cur]
    is the piece read so far. *)
Fixpoint split_from (sep : string) (skip : nat) (cur : string) (s : string)
  : list string :=
  match s with
  | EmptyString => [cur]
  | String ch rest =>
      match skip with
      | S k => split_from sep k cur rest
      | O =>
          if String.prefix sep s
          then cur :: split_from sep (Nat.pred (String.length sep)) "" rest
          else split_from sep O (cur ++ String ch "") rest
      end
  end.

Definition split (sep : string) (s : string) : list string :=
  split_from sep O "" s.

(** [f"{session['session_id']} - {session['session_name']}"], the text of
    an item of the session list ([ChatWindow.list_sessions]). *)
Definition session_label (other : value -> string) (session : value)
  : outcome string :=
  match getitem_key session "session_id" with
  | Raise e => Raise e
  | Return i =>
      match getitem_key session "session_name" with
      | Raise e => Raise e
      | Return n => Return (format other i ++ " - " ++ format other n)
      end
  end.

(** [current.text().split(" - ")[0]], the session id the client puts in the
    URL ([select_session], [send_message], [delete_session]). *)
Definition selected_session_id (text : string) : outcome string :=
  match split " - " text with
  | x :: _ => Return x
  | [] => Raise IndexError
  end.

(** [response.json().get('detail', 'Unknown error occurred.')], the text
    the client shows when a request is not answered with success. *)
Definition error_msg (body : value) : outcome value :=
  match body with
  | VDict items =>
      match dict_get items "detail" with
      | Some v => Return v
      | None => Return (VStr "Unknown error occurred.")
      end
  | _ => Raise (OtherError "AttributeError")
  end.

(** No space among the characters of [s]. *)
Fixpoint spaceless (s : string) : bool :=
  match s with
  | EmptyString => true
  | String ch rest => negb (Ascii.eqb ch " "%char) && spaceless rest
  end.

End ChatApp.

(* ================================================================== *)
(** ** How a row may differ from its earlier self *)

Module History.
Import Py Models Store.

(** The same message, possibly deleted since. *)
Definition message_kept (old new : Message) : Prop :=
  id new = id old
  /\ session_id new = session_id old
  /\ character_name new = character_name old
  /\ message new = message old
  /\ timestamp new = timestamp old
  /\ (is_deleted old = true -> is_deleted new = true).

(** The same session, possibly deactivated since. *)
Definition session_kept (old new : Session) : Prop :=
  s_id new = s_id old
  /\ name new = name old
  /\ (active old = false -> active new = false).

(** [rows'] holds every row of [rows], in the same order and kept in the
    sense of [kept], followed by new rows only. *)
Definition extends {A} (kept : A -> A -> Prop) (rows rows' : list A) : Prop :=
  exists old' added, rows' = old' ++ added /\ Forall2 kept rows old'.

(** What one request can do to the store: nothing, or one of the four
    writes of the routes. *)
Inductive store_step (env : Env) (db : Database) : Database -> Prop :=
| step_none :
    store_step env db db
| step_new_session (nm : option string) :
    store_step env db
      (mk_db (sessions db
              ++ [mk_session (next_rowid (map s_id (sessions db))) true nm])
             (messages db))
| step_session_inactive (sid : Z) :
    store_step env db
      (mk_db (Shapes.mark_inactive sid (sessions db)) (messages db))
| step_message_deleted (message_id : Z) :
    store_step env db
      (mk_db (sessions db) (Shapes.mark_deleted message_id (messages db)))
| step_turn (c : MessageCrud.ChatSchema) (text : option string) :
    store_step env db
      (mk_db (sessions db)
             (messages db
              ++ [Shapes.user_row_of env c (messages db);
                  Shapes.assistant_row_of
                    env c (messages db ++ [Shapes.user_row_of env c (messages db)])
                    text])).

(** The ids 1, 2, ..., n. *)
Definition first_ids (n : nat) : list Z := map Z.of_nat (seq 1 n).

(** Both tables have the ids 1, ..., n in table order. *)
Definition dense_db (db : Database) : Prop :=
  map s_id (sessions db) = first_ids (List.length (sessions db))
  /\ map id (messages db) = first_ids (List.length (messages db)).

End History.

(* ================================================================== *)
(** * Properties *)

Import Py Models Store UseApi SessionCrud MessageCrud Main Shapes.
Import ChatApp History.

Ltac unfold_monad :=
  unfold try_except, bind, ret, raise, lift, get_store, put_store in *.

(** ** Row identifiers *)

Lemma max_rowid_upper (ids : list Z) :
  forall m, max_rowid ids = Some m -> forall x, In x ids -> x <= m.
Proof.
  induction ids as [|a rest IH]; intros m Hm x Hx.
  - destruct Hx.
  - simpl in Hm. destruct (max_rowid rest) as [y|] eqn:Hrest.
    + injection Hm as <-. destruct Hx as [->|Hx].
      * lia.
      * specialize (IH y eq_refl x Hx). lia.
    + injection Hm as <-. destruct Hx as [->|Hx]; [lia|].
      destruct rest; [destruct Hx|]. simpl in Hrest.
      destruct (max_rowid rest); discriminate.
Qed.

Lemma next_rowid_fresh (ids : list Z) (x : Z) :
  In x ids -> x < next_rowid ids.
Proof.
  intros Hx. unfold next_rowid.
  destruct (max_rowid ids) as [m|] eqn:Hm.
  - pose proof (max_rowid_upper ids m Hm x Hx). lia.
  - destruct ids; [destruct Hx|]. simpl in Hm.
    destruct (max_rowid ids); discriminate.
Qed.

Lemma sorted_snoc (l : list Z) (y : Z) :
  StronglySorted Z.lt l -> (forall x, In x l -> x < y) ->
  StronglySorted Z.lt (l ++ [y]).
Proof.
  induction 1 as [|a l Hs IH Ha]; intros Hy; simpl.
  - repeat constructor.
  - constructor.
    + apply IH. intros x Hx. apply Hy. now right.
    + apply Forall_app. split; [exact Ha|].
      constructor; [|constructor]. apply Hy. now left.
Qed.

Lemma sorted_filter {A} (key : A -> Z) (p : A -> bool) (l : list A) :
  StronglySorted Z.lt (map key l) ->
  StronglySorted Z.lt (map key (filter p l)).
Proof.
  induction l as [|a l IH]; simpl; intros Hs; [constructor|].
  inversion Hs as [|? ? Hs' Ha]; subst.
  destruct (p a); simpl; [|now apply IH].
  constructor; [now apply IH|].
  rewrite Forall_forall in *. intros x Hx. apply Ha.
  rewrite in_map_iff in *. destruct Hx as [m [<- Hm]].
  exists m. split; [reflexivity|]. now apply filter_In in Hm.
Qed.

Lemma sorted_next_rowid (l : list Z) :
  StronglySorted Z.lt l -> StronglySorted Z.lt (l ++ [next_rowid l]).
Proof.
  intros Hs. apply sorted_snoc; [exact Hs|]. apply next_rowid_fresh.
Qed.

(** ** The request payload *)

Lemma call_logged_async env model messages key t mt tp fp pp w :
  calls (snd (async_call_openai_chat_api env model messages key t mt tp fp pp w))
  = calls w ++ [mk_call (mk_request (api_url (config env)) (headers key)
                           (VDict (payload model messages t mt tp fp pp)))
                        (store w)]
  /\ store (snd (async_call_openai_chat_api env model messages key t mt tp fp pp w))
     = store w.
Proof.
  unfold async_call_openai_chat_api, aiohttp_round_trip. unfold_monad.
  destruct (aio_post _ _ _) as [status reason body| |]; simpl.
  - destruct (400 <=? status); simpl; [now split|].
    destruct body; simpl; now split.
  - now split.
  - now split.
Qed.

Lemma call_logged_sync env model messages key t mt tp fp pp w :
  calls (snd (call_openai_chat_api env model messages key t mt tp fp pp w))
  = calls w ++ [mk_call (mk_request (api_url (config env)) (headers key)
                           (VDict (payload model messages t mt tp fp pp)))
                        (store w)]
  /\ store (snd (call_openai_chat_api env model messages key t mt tp fp pp w))
     = store w.
Proof.
  unfold call_openai_chat_api, requests_round_trip. unfold_monad.
  destruct (requests_post _ _) as [status text body| |]; simpl.
  - destruct ((400 <=? status) && (status <? 600)); simpl; [now split|].
    destruct body; simpl; now split.
  - now split.
  - now split.
Qed.

(** C9.  Both clients send a payload that holds the model identifier and the
    messages in the order given; an optional generation parameter is present
    with its value when it is set and absent when it is not, and no item of
    the payload is [None]. *)
Theorem payload_omits_unset_parameters :
  forall env model messages key t mt tp fp pp w,
    let p := payload model messages t mt tp fp pp in
    (dict_get p "model" = Some (VStr model)
     /\ dict_get p "messages" = Some (VList messages)
     /\ dict_get p "temperature" = option_map VFloat t
     /\ dict_get p "max_tokens" = option_map VInt mt
     /\ dict_get p "top_p" = option_map VFloat tp
     /\ dict_get p "frequency_penalty" = option_map VFloat fp
     /\ dict_get p "presence_penalty" = option_map VFloat pp)
    /\ Forall (fun kv => snd kv <> VNone) p
    /\ (exists rq,
          req_json rq = VDict p
          /\ calls (snd (async_call_openai_chat_api
                           env model messages key t mt tp fp pp w))
             = calls w ++ [mk_call rq (store w)])
    /\ (exists rq,
          req_json rq = VDict p
          /\ calls (snd (call_openai_chat_api
                           env model messages key t mt tp fp pp w))
             = calls w ++ [mk_call rq (store w)]).
Proof.
  intros env model messages key t mt tp fp pp w p. subst p.
  split; [|split; [|split]].
  - destruct t, mt, tp, fp, pp; repeat split; reflexivity.
  - unfold payload, remove_None. apply Forall_forall. intros [k v] Hin.
    apply filter_In in Hin. destruct Hin as [_ Hv]. simpl in *.
    intros ->. discriminate.
  - eexists. split; [|apply call_logged_async]. reflexivity.
  - eexists. split; [|apply call_logged_sync]. reflexivity.
Qed.

(** ** Statements that run and statements that do not *)

Lemma refusal_runs (env : Env) (s : statement) (i : Z) :
  store_fault env s = None -> int64 i = true -> refusal env s [i] = None.
Proof. intros Hf Hi. unfold refusal. rewrite Hf. simpl. now rewrite Hi. Qed.

Lemma refusal_plain (env : Env) (s : statement) :
  store_fault env s = None -> refusal env s [] = None.
Proof. intros Hf. unfold refusal. now rewrite Hf. Qed.

Lemma refusal_overflow (env : Env) (s : statement) (i : Z) :
  store_fault env s = None -> int64 i = false ->
  refusal env s [i] = Some OverflowError.
Proof. intros Hf Hi. unfold refusal. rewrite Hf. simpl. now rewrite Hi. Qed.

Lemma refusal_in_range (env : Env) (s : statement) (i : Z) :
  refusal env s [i] = None -> store_fault env s = None /\ int64 i = true.
Proof.
  unfold refusal. destruct (store_fault env s); [discriminate|].
  simpl. destruct (int64 i); [now split|discriminate].
Qed.

Lemma refusal_fault (env : Env) (s : statement) (ps : list Z) (f : fault) :
  store_fault env s = Some f -> refusal env s ps = Some (exn_of_fault f).
Proof. intros Hf. unfold refusal. now rewrite Hf. Qed.

(** ** The routes, as equations *)

Lemma delete_message_eq (env : Env) (message_id : Z) (w : World) :
  delete_message env message_id w =
  match refusal env (SelectMessage message_id) [message_id] with
  | Some e => (Raise (delete_message_except e), w)
  | None =>
      match find (fun m => id m =? message_id) (messages (store w)) with
      | None => (Raise (HTTPException 404 "消息ID不存在"), w)
      | Some m =>
          if is_deleted m then (Return deleted_ok, w)
          else
            match refusal env (CommitMessageDeleted message_id) [message_id] with
            | Some e => (Raise (delete_message_except e), w)
            | None =>
                (Return deleted_ok,
                 mk_world (mk_db (sessions (store w))
                                 (mark_deleted message_id (messages (store w))))
                          (calls w))
            end
      end
  end.
Proof.
  unfold delete_message, first_message, commit_message_deleted, execute.
  unfold_monad. cbv beta iota.
  destruct (refusal env (SelectMessage message_id) [message_id]) as [e|];
    [now destruct e|].
  cbv beta iota. destruct (find _ _) as [m|] eqn:Hfind; [|reflexivity].
  cbv beta iota. destruct (is_deleted m); [reflexivity|].
  apply find_some in Hfind. destruct Hfind as [_ Hid].
  apply Z.eqb_eq in Hid. rewrite Hid.
  destruct (refusal env (CommitMessageDeleted message_id) [message_id])
    as [e|]; [now destruct e|reflexivity].
Qed.

Lemma finite_message_items (s : string) (rows : list Message) :
  finite_floats
    (VDict [("message"%string, VStr s);
            ("messages"%string, VList (map message_item rows))]) = true.
Proof.
  simpl. rewrite andb_true_r.
  induction rows as [|m rows IH]; simpl; [reflexivity|].
  rewrite IH. destruct (message m); reflexivity.
Qed.

Lemma get_messages_eq (env : Env) (sid : Z) (w : World) :
  get_messages env sid w =
  match refusal env (SelectSession sid) [sid] with
  | Some e => (Raise (get_messages_except e), w)
  | None =>
      match find (fun s => s_id s =? sid) (sessions (store w)) with
      | None => (Raise (HTTPException 404 "会话ID不存在"), w)
      | Some _ =>
          match refusal env (SelectMessages sid) [sid] with
          | Some e => (Raise (get_messages_except e), w)
          | None =>
              (Return (messages_ok (filter (live_message sid)
                                           (messages (store w)))), w)
          end
      end
  end.
Proof.
  unfold get_messages, first_session, all_live_messages, execute.
  unfold_monad. cbv beta iota.
  destruct (refusal env (SelectSession sid) [sid]) as [e|]; [now destruct e|].
  cbv beta iota. destruct (find _ _) as [s|]; [|reflexivity].
  cbv beta iota.
  destruct (refusal env (SelectMessages sid) [sid]) as [e|]; [now destruct e|].
  cbv beta iota. unfold json_response. rewrite finite_message_items.
  reflexivity.
Qed.

Lemma finite_session_items (s : string) (rows : list Session) :
  finite_floats
    (VDict [("message"%string, VStr s);
            ("sessions"%string, VList (map session_item rows))]) = true.
Proof.
  simpl. rewrite andb_true_r.
  induction rows as [|r rows IH]; simpl; [reflexivity|].
  rewrite IH. destruct (name r); reflexivity.
Qed.

Lemma list_sessions_eq (env : Env) (w : World) :
  list_sessions env w =
  match refusal env SelectActiveSessions [] with
  | Some e => (Raise (list_sessions_except e), w)
  | None =>
      (Return (sessions_ok (filter (fun s => Bool.eqb (active s) true)
                                   (sessions (store w)))), w)
  end.
Proof.
  unfold list_sessions, all_active_sessions, execute. unfold_monad.
  cbv beta iota.
  destruct (refusal env SelectActiveSessions []) as [e|]; [now destruct e|].
  cbv beta iota. unfold json_response. rewrite finite_session_items.
  reflexivity.
Qed.

Lemma delete_session_eq (env : Env) (sid : Z) (w : World) :
  delete_session env sid w =
  match refusal env (SelectSession sid) [sid] with
  | Some e => (Raise (delete_session_except e), w)
  | None =>
      match find (fun s => s_id s =? sid) (sessions (store w)) with
      | None => (Raise (HTTPException 404 "会话ID不存在"), w)
      | Some _ =>
          match refusal env (CommitSessionInactive sid) [sid] with
          | Some e => (Raise (delete_session_except e), w)
          | None =>
              (Return session_deleted_ok,
               mk_world (mk_db (mark_inactive sid (sessions (store w)))
                               (messages (store w)))
                        (calls w))
          end
      end
  end.
Proof.
  unfold delete_session, first_session, commit_session_inactive, execute.
  unfold_monad. cbv beta iota.
  destruct (refusal env (SelectSession sid) [sid]) as [e|]; [now destruct e|].
  cbv beta iota. destruct (find _ _) as [s|] eqn:Hfind; [|reflexivity].
  cbv beta iota. apply find_some in Hfind. destruct Hfind as [_ Hid].
  apply Z.eqb_eq in Hid. rewrite Hid.
  destruct (refusal env (CommitSessionInactive sid) [sid]) as [e|];
    [now destruct e|reflexivity].
Qed.

Lemma create_session_eq (env : Env) (nm : option string) (w : World) :
  create_session env nm w =
  match refusal env (CommitNewSession nm) [] with
  | Some e => (Raise (create_session_except e), w)
  | None =>
      let s := mk_session (next_rowid (map s_id (sessions (store w)))) true nm in
      let w1 := mk_world (mk_db (sessions (store w) ++ [s]) (messages (store w)))
                         (calls w) in
      match refusal env (RefreshSession (s_id s)) [] with
      | Some e => (Raise (create_session_except e), w1)
      | None =>
          (Return (mk_response 201
                     (VDict [("message", VStr "创建会话成功");
                             ("session_id", VInt (s_id s));
                             ("session_name", of_opt_str nm)]%string)),
           w1)
      end
  end.
Proof.
  unfold create_session, commit_new_session, execute. unfold_monad.
  cbv beta iota zeta.
  destruct (refusal env (CommitNewSession nm) []) as [e|]; [now destruct e|].
  cbv beta iota. cbn [s_id name].
  destruct (refusal env (RefreshSession _) []) as [e|]; [now destruct e|].
  cbv beta iota. unfold json_response. destruct nm; reflexivity.
Qed.

Lemma world_eta (w : World) : mk_world (store w) (calls w) = w.
Proof. now destruct w. Qed.

Lemma chat_with_openai_eq (env : Env) (c : ChatSchema) (w : World) :
  chat_with_openai env c w =
  let sid := chat_session_id c in
  match refusal env (SelectMessages sid) [sid] with
  | Some e => (Raise (chat_except e), w)
  | None =>
      let w1 := after_call env c w in
      match upstream_reply env c w with
      | Raise e => (Raise (chat_except e), w1)
      | Return ai =>
          match refusal env (CommitNewMessages sid) [] with
          | Some e => (Raise (chat_except e), w1)
          | None =>
              match bind_text env ai with
              | Raise e => (Raise (chat_except e), w1)
              | Return text =>
                  let u := user_row_of env c (messages (store w)) in
                  let a := assistant_row_of env c (messages (store w) ++ [u])
                                            text in
                  let w2 := mk_world (mk_db (sessions (store w))
                                            (messages (store w) ++ [u; a]))
                                     (calls w1) in
                  match refusal env (RefreshMessage (id a)) [] with
                  | Some e => (Raise (chat_except e), w2)
                  | None =>
                      match refusal env (RefreshMessage (id u)) [] with
                      | Some e => (Raise (chat_except e), w2)
                      | None =>
                          match json_response 200 (chat_ok u a ai) with
                          | Return r => (Return r, w2)
                          | Raise _ =>
                              (Raise (HTTPException
                                        500 "与OpenAI通信时发生未知错误"), w2)
                          end
                      end
                  end
              end
          end
      end
  end.
Proof.
  cbv zeta. unfold upstream_reply.
  pose proof (call_logged_async env (model_name (config env))
                (chat_history c (store w)) (api_key (config env))
                None None None None None w) as [Hcalls Hstore].
  unfold chat_with_openai, all_live_messages, commit_new_messages, execute.
  unfold_monad. cbv beta iota.
  destruct (refusal env (SelectMessages (chat_session_id c))
                    [chat_session_id c]) as [e|] eqn:Hsel; [now destruct e|].
  apply refusal_in_range in Hsel. destruct Hsel as [_ Hrange].
  cbv beta iota. fold (chat_history c (store w)).
  destruct (async_call_openai_chat_api _ _ _ _ _ _ _ _ _ w)
    as [[response|e] w1] eqn:Hcall; cbn [fst snd] in Hcalls, Hstore |- *.
  - assert (Hw1 : w1 = after_call env c w).
    { unfold after_call, chat_request. rewrite <- Hcalls, <- Hstore.
      now rewrite world_eta. }
    subst w1. clear Hcalls Hstore Hcall.
    unfold user_row_of, assistant_row_of, after_call, insert_message.
    cbn [store calls new_session_id new_character_name new_message].
    destruct (reply_content response) as [ai|e]; cbv beta iota;
      [|now destruct e].
    destruct (refusal env (CommitNewMessages (chat_session_id c)) [])
      as [e|]; [now destruct e|].
    cbv beta iota zeta. cbn [store calls]. rewrite Hrange.
    cbn [bind_text]. cbv beta iota.
    destruct (bind_text env ai) as [text|e]; cbv beta iota;
      [|now destruct e].
    cbn [store calls id fst snd].
    match goal with
    | |- context [refusal env (RefreshMessage ?i) []] =>
        destruct (refusal env (RefreshMessage i) []) as [e|];
          [now destruct e|]
    end.
    cbv beta iota.
    match goal with
    | |- context [refusal env (RefreshMessage ?i) []] =>
        destruct (refusal env (RefreshMessage i) []) as [e|];
          [now destruct e|]
    end.
    cbv beta iota. cbn [fst snd id]. unfold chat_ok. cbn [id].
    match goal with
    | |- context [json_response 200 ?v] =>
        destruct (json_response 200 v) as [r|e] eqn:Hr
    end.
    + reflexivity.
    + unfold json_response in Hr.
      destruct (finite_floats _); [discriminate|].
      injection Hr as <-. reflexivity.
  - assert (Hw1 : w1 = after_call env c w).
    { unfold after_call, chat_request. rewrite <- Hcalls, <- Hstore.
      now rewrite world_eta. }
    subst w1. now destruct e.
Qed.

(** ** One request, one step of the store *)

Ltac split_refusals :=
  repeat match goal with
         | |- context [match refusal ?env ?s ?p with _ => _ end] =>
             destruct (refusal env s p)
         end.

Ltac case_refusal :=
  match goal with
  | |- context [match refusal ?env ?s ?p with _ => _ end] =>
      destruct (refusal env s p)
  end.

Lemma app_step (env : Env) (r : request) (w : World) :
  store_step env (store w) (store (snd (app env r w))).
Proof.
  unfold app. destruct r as [nm| |sid|c|sid|mid]; unfold route.
  - rewrite create_session_eq. cbv zeta. split_refusals; cbn [snd store];
      try apply step_none; apply step_new_session.
  - rewrite list_sessions_eq. split_refusals; apply step_none.
  - rewrite delete_session_eq.
    destruct (refusal _ _ _); [apply step_none|].
    destruct (find _ _); [|apply step_none].
    destruct (refusal _ _ _); [apply step_none|apply step_session_inactive].
  - rewrite chat_with_openai_eq. cbv zeta.
    destruct (refusal _ _ _); [apply step_none|].
    destruct (upstream_reply env c w) as [ai|e]; [|apply step_none].
    destruct (refusal _ _ _); [apply step_none|].
    destruct (bind_text env ai) as [text|e]; [|apply step_none].
    destruct (refusal _ _ _); [apply step_turn|].
    destruct (refusal _ _ _); [apply step_turn|].
    destruct (json_response _ _); apply step_turn.
  - rewrite get_messages_eq.
    destruct (refusal _ _ _); [apply step_none|].
    destruct (find _ _); [|apply step_none].
    destruct (refusal _ _ _); apply step_none.
  - rewrite delete_message_eq.
    destruct (refusal _ _ _); [apply step_none|].
    destruct (find _ _) as [m|]; [|apply step_none].
    destruct (is_deleted m); [apply step_none|].
    destruct (refusal _ _ _); [apply step_none|apply step_message_deleted].
Qed.

Lemma run_invariant (env : Env) (P : Database -> Prop) :
  (forall db db', P db -> store_step env db db' -> P db') ->
  forall rs w, P (store w) -> P (store (run env rs w)).
Proof.
  intros Hstep rs. induction rs as [|r rs IH]; intros w Hw; simpl; [exact Hw|].
  apply IH. eapply Hstep; [exact Hw|apply app_step].
Qed.

(** ** The primary-key invariant *)

Lemma sorted_unique {A} (key : A -> Z) (l : list A) :
  StronglySorted Z.lt (map key l) ->
  forall a b, In a l -> In b l -> key a = key b -> a = b.
Proof.
  induction l as [|x l IH]; simpl; intros Hs a b Ha Hb Hk; [destruct Ha|].
  inversion Hs as [|? ? Hs' Hx]; subst.
  rewrite Forall_forall in Hx.
  assert (Hlt : forall y, In y l -> key x < key y).
  { intros y Hy. apply Hx. now apply in_map. }
  destruct Ha as [Ha|Ha], Hb as [Hb|Hb]; subst.
  - reflexivity.
  - specialize (Hlt b Hb). lia.
  - specialize (Hlt a Ha). lia.
  - now apply IH.
Qed.

Lemma mark_deleted_ids (message_id : Z) (rows : list Message) :
  map id (mark_deleted message_id rows) = map id rows.
Proof.
  unfold mark_deleted. rewrite map_map. apply map_ext.
  intros r. now destruct (id r =? message_id).
Qed.

Lemma mark_inactive_ids (sid : Z) (rows : list Session) :
  map s_id (mark_inactive sid rows) = map s_id rows.
Proof.
  unfold mark_inactive. rewrite map_map. apply map_ext.
  intros r. now destruct (s_id r =? sid).
Qed.

Lemma turn_ids (env : Env) (c : ChatSchema) (rows : list Message)
      (text : option string) :
  map id (rows ++ [user_row_of env c rows;
                   assistant_row_of env c (rows ++ [user_row_of env c rows])
                                    text])
  = (map id rows ++ [next_rowid (map id rows)])
    ++ [next_rowid (map id rows ++ [next_rowid (map id rows)])].
Proof.
  unfold user_row_of, assistant_row_of. rewrite !map_app. cbn [map id].
  now rewrite <- app_assoc.
Qed.

Lemma wf_empty : wf_db empty_db.
Proof. split; constructor. Qed.

Lemma step_wf (env : Env) (db db' : Database) :
  wf_db db -> store_step env db db' -> wf_db db'.
Proof.
  intros [Hs Hm] Hstep. destruct Hstep; split; cbn [sessions messages];
    try assumption.
  - rewrite map_app. now apply sorted_next_rowid.
  - now rewrite mark_inactive_ids.
  - now rewrite mark_deleted_ids.
  - rewrite turn_ids. now do 2 apply sorted_next_rowid.
Qed.

Lemma reachable_wf env rs : wf_db (store (run env rs initial)).
Proof. apply (run_invariant env wf_db (step_wf env)). exact wf_empty. Qed.

(** ** Lookups by primary key *)

Lemma find_key_none {A} (key : A -> Z) (k : Z) (l : list A) :
  (forall x, In x l -> key x <> k) -> find (fun x => key x =? k) l = None.
Proof.
  intros H. destruct (find _ l) as [x|] eqn:Hf; [|reflexivity].
  apply find_some in Hf. destruct Hf as [Hin Hk].
  apply Z.eqb_eq in Hk. now apply H in Hin.
Qed.

Lemma find_key_some {A} (key : A -> Z) (k : Z) (l : list A) :
  (exists x, In x l /\ key x = k) ->
  exists y, find (fun x => key x =? k) l = Some y /\ In y l /\ key y = k.
Proof.
  intros [x [Hin Hk]]. destruct (find _ l) as [y|] eqn:Hf.
  - exists y. apply find_some in Hf. destruct Hf as [Hy Hky].
    apply Z.eqb_eq in Hky. now repeat split.
  - apply (find_none _ _ Hf) in Hin. apply Z.eqb_neq in Hin. contradiction.
Qed.

Lemma in_mark_deleted (message_id : Z) (rows : list Message) (m : Message) :
  In m (mark_deleted message_id rows) -> id m = message_id ->
  is_deleted m = true.
Proof.
  unfold mark_deleted. rewrite in_map_iff. intros [r [Hr _]] Hid.
  destruct (id r =? message_id) eqn:E; subst m; [reflexivity|].
  apply Z.eqb_neq in E. contradiction.
Qed.

Lemma mark_deleted_keeps (message_id : Z) (rows : list Message) (m : Message) :
  In m rows -> exists m', In m' (mark_deleted message_id rows) /\ id m' = id m.
Proof.
  intros Hin. exists (if id m =? message_id then set_is_deleted true m else m).
  split.
  - unfold mark_deleted. apply in_map_iff. now exists m.
  - now destruct (id m =? message_id).
Qed.

Lemma in_mark_inactive (sid : Z) (rows : list Session) (s : Session) :
  In s (mark_inactive sid rows) -> s_id s = sid -> active s = false.
Proof.
  unfold mark_inactive. rewrite in_map_iff. intros [r [Hr _]] Hid.
  destruct (s_id r =? sid) eqn:E; subst s; [reflexivity|].
  apply Z.eqb_neq in E. contradiction.
Qed.

Lemma mark_inactive_twice (sid : Z) (rows : list Session) :
  mark_inactive sid (mark_inactive sid rows) = mark_inactive sid rows.
Proof.
  unfold mark_inactive. rewrite map_map. apply map_ext. intros r.
  destruct (s_id r =? sid) eqn:E; simpl; now rewrite E.
Qed.

Lemma mark_deleted_frame (message_id : Z) (rows : list Message) :
  Forall2
    (fun old new =>
       new = old
       \/ (id old = message_id /\ new = set_is_deleted true old))
    rows (mark_deleted message_id rows).
Proof.
  induction rows as [|r rows IH]; simpl; constructor; [|exact IH].
  destruct (id r =? message_id) eqn:E; [right|now left].
  apply Z.eqb_eq in E. now split.
Qed.

Lemma mark_inactive_frame (sid : Z) (rows : list Session) :
  Forall2
    (fun old new =>
       new = old \/ (s_id old = sid /\ new = set_active false old))
    rows (mark_inactive sid rows).
Proof.
  induction rows as [|r rows IH]; simpl; constructor; [|exact IH].
  destruct (s_id r =? sid) eqn:E; [right|now left].
  apply Z.eqb_eq in E. now split.
Qed.

Lemma Forall2_same {A} (R : A -> A -> Prop) (l : list A) :
  (forall x, R x x) -> Forall2 R l l.
Proof. intros H. induction l; constructor; auto. Qed.

Lemma live_message_iff (sid : Z) (m : Message) :
  live_message sid m = true <-> session_id m = sid /\ is_deleted m = false.
Proof.
  unfold live_message. rewrite andb_true_iff, Z.eqb_eq.
  destruct (is_deleted m); simpl; intuition congruence.
Qed.

(** What the routes put in a listing is what a listing is said to show. *)
Lemma message_item_shown (m : Message) : message_item m = shown_message m.
Proof. unfold message_item, shown_message. now destruct (message m). Qed.

Lemma session_item_shown (s : Session) : session_item s = shown_session s.
Proof. unfold session_item, shown_session. now destruct (name s). Qed.

Lemma history_entry_sent (m : Message) : history_entry m = sent_message m.
Proof. unfold history_entry, sent_message. now destruct (message m). Qed.

Lemma messages_ok_shown (rows : list Message) :
  messages_ok rows
  = mk_response 200
      (VDict [("message", VStr "获取指定会话中的所有消息成功");
              ("messages", VList (map shown_message rows))]%string).
Proof.
  unfold messages_ok. now rewrite (map_ext _ _ message_item_shown).
Qed.

Lemma sessions_ok_shown (rows : list Session) :
  sessions_ok rows
  = mk_response 200
      (VDict [("message", VStr "获取所有会话id成功");
              ("sessions", VList (map shown_session rows))]%string).
Proof.
  unfold sessions_ok. now rewrite (map_ext _ _ session_item_shown).
Qed.

(** ** Deleting a message *)

Lemma delete_message_found (env : Env) (w : World) (message_id : Z)
      (m : Message) :
  wf_db (store w) ->
  refusal env (SelectMessage message_id) [message_id] = None ->
  refusal env (CommitMessageDeleted message_id) [message_id] = None ->
  In m (messages (store w)) -> id m = message_id ->
  let w1 := snd (delete_message env message_id w) in
  fst (delete_message env message_id w) = Return deleted_ok
  /\ (forall m', In m' (messages (store w1)) -> id m' = message_id ->
                 is_deleted m' = true)
  /\ (exists m', In m' (messages (store w1)) /\ id m' = message_id)
  /\ delete_message env message_id w1 = (Return deleted_ok, w1).
Proof.
  intros [_ Hsorted] Hsel Hcommit Hin Hid.
  assert (Hfirst : forall w1,
            (forall m', In m' (messages (store w1)) -> id m' = message_id ->
                        is_deleted m' = true) ->
            (exists m', In m' (messages (store w1)) /\ id m' = message_id) ->
            delete_message env message_id w1 = (Return deleted_ok, w1)).
  { intros w1 Hall Hex. rewrite delete_message_eq, Hsel.
    destruct (find_key_some id message_id _ Hex) as [y [-> [Hy Hky]]].
    now rewrite (Hall y Hy Hky). }
  cbv zeta. rewrite delete_message_eq, Hsel.
  destruct (find_key_some id message_id (messages (store w)))
    as [y [Hfind [Hy Hky]]]; [now exists m|].
  rewrite Hfind. destruct (is_deleted y) eqn:Hdel.
  - cbn [fst snd].
    assert (Hall : forall m', In m' (messages (store w)) ->
                              id m' = message_id -> is_deleted m' = true).
    { intros m' Hm' Hid'.
      rewrite (sorted_unique id _ Hsorted m' y Hm' Hy); [exact Hdel|congruence]. }
    repeat split; [exact Hall|now exists m|].
    apply Hfirst; [exact Hall|now exists m].
  - rewrite Hcommit. cbn [fst snd store messages].
    assert (Hex : exists m', In m' (mark_deleted message_id (messages (store w)))
                             /\ id m' = message_id).
    { destruct (mark_deleted_keeps message_id _ m Hin) as [m' [Hm' Hid']].
      exists m'. split; [exact Hm'|congruence]. }
    repeat split; [apply in_mark_deleted|exact Hex|].
    apply Hfirst; cbn [store messages]; [apply in_mark_deleted|exact Hex].
Qed.

Lemma get_messages_returns (env : Env) (sid : Z) (w w2 : World)
      (r : JSONResponse) :
  get_messages env sid w = (Return r, w2) ->
  w2 = w
  /\ r = mk_response 200
           (VDict [("message", VStr "获取指定会话中的所有消息成功");
                   ("messages",
                    VList (map shown_message
                               (filter (live_message sid)
                                       (messages (store w)))))]%string).
Proof.
  rewrite get_messages_eq.
  destruct (refusal _ _ _); [discriminate|].
  destruct (find _ _); [|discriminate].
  destruct (refusal _ _ _); [discriminate|].
  rewrite messages_ok_shown. intros [= <- <-]. now split.
Qed.

(** C4, as the code has it.  In every state the service can reach, as long
    as the store runs the two statements of the route: for a message id in
    the signed 64-bit range, deleting a message that exists succeeds and
    leaves it flagged as deleted, a second delete of the same id succeeds
    and changes nothing, and no listing of any session shows an entry with
    that id any more, while deleting an id that no message has fails with
    404 and changes nothing; for an id outside that range the route fails
    with 500 and changes nothing. *)
Theorem delete_message_idempotent :
  forall env rs message_id,
    let w := run env rs initial in
    store_fault env (SelectMessage message_id) = None ->
    store_fault env (CommitMessageDeleted message_id) = None ->
    (int64 message_id = true ->
     ((exists m, In m (messages (store w)) /\ id m = message_id) ->
      let w1 := snd (delete_message env message_id w) in
      fst (delete_message env message_id w)
      = Return (mk_response 200 (VDict [("message", VStr "消息已成功删除")]%string))
      /\ (forall m', In m' (messages (store w1)) -> id m' = message_id ->
                     is_deleted m' = true)
      /\ (exists m', In m' (messages (store w1)) /\ id m' = message_id)
      /\ delete_message env message_id w1
         = (Return (mk_response 200
                      (VDict [("message", VStr "消息已成功删除")]%string)), w1)
      /\ (forall sid r w2,
            get_messages env sid w1 = (Return r, w2) ->
            exists rows,
              getitem_key (content r) "messages"
              = Return (VList (map shown_message rows))
              /\ forall m', In m' rows -> id m' <> message_id))
     /\ ((forall m, In m (messages (store w)) -> id m <> message_id) ->
         delete_message env message_id w
         = (Raise (HTTPException 404 "消息ID不存在"), w)))
    /\ (int64 message_id = false ->
        delete_message env message_id w
        = (Raise (HTTPException 500 "未知错误"), w)).
Proof.
  intros env rs message_id w Hsel Hcommit. split.
  - intros Hrange.
    pose proof (refusal_runs env _ message_id Hsel Hrange) as Hsel'.
    pose proof (refusal_runs env _ message_id Hcommit Hrange) as Hcommit'.
    split.
    + intros [m [Hin Hid]].
      destruct (delete_message_found env w message_id m (reachable_wf env rs)
                                     Hsel' Hcommit' Hin Hid)
        as [Hok [Hall [Hex Hagain]]].
      cbv zeta. repeat split; try assumption.
      intros sid r w2 Hlist. apply get_messages_returns in Hlist.
      destruct Hlist as [_ ->]. eexists. split; [reflexivity|].
      intros m' Hm' Hid'. apply filter_In in Hm'. destruct Hm' as [Hm' Hlive].
      specialize (Hall m' Hm' Hid'). apply live_message_iff in Hlive.
      destruct Hlive as [_ Hlive]. congruence.
    + intros Hnone. rewrite delete_message_eq, Hsel'.
      now rewrite (find_key_none id message_id _ Hnone).
  - intros Hrange. rewrite delete_message_eq.
    now rewrite (refusal_overflow env _ message_id Hsel Hrange).
Qed.

(** C4, as stated, fails: no message has the id 2^63, the store is sound,
    and the route answers 500 where the claim says NotFound. *)
Lemma delete_message_out_of_range :
  delete_message (Example.answering "world") (2 ^ 63) initial
  = (Raise (HTTPException 500 "未知错误"), initial)
  /\ ~ unknown_message_is_not_found (Example.answering "world").
Proof.
  split; [reflexivity|].
  intros H. specialize (H (2 ^ 63) initial). simpl in H.
  assert (Hnone : forall m : Message, False -> id m <> 2 ^ 63) by tauto.
  specialize (H Hnone). discriminate H.
Qed.

(** ** What a delete leaves alone *)

(** C10.  A delete of an existing message keeps every session row and the
    number and order of the message rows; a message row either stays as it
    was or carries the requested id and differs from its old self in
    [is_deleted] alone, which is now true; and when the message found was
    already deleted, nothing changes at all. *)
Theorem delete_message_frame :
  forall env message_id w m,
    find (fun r => id r =? message_id) (messages (store w)) = Some m ->
    let w' := snd (delete_message env message_id w) in
    sessions (store w') = sessions (store w)
    /\ calls w' = calls w
    /\ Forall2
         (fun old new =>
            new = old
            \/ (id old = message_id
                /\ id new = id old
                /\ session_id new = session_id old
                /\ character_name new = character_name old
                /\ message new = message old
                /\ timestamp new = timestamp old
                /\ is_deleted new = true))
         (messages (store w)) (messages (store w'))
    /\ (is_deleted m = true -> w' = w).
Proof.
  intros env message_id w m Hfind. cbv zeta. rewrite delete_message_eq.
  assert (Hsame : forall e : exn,
             sessions (store (snd (@Raise JSONResponse e, w)))
             = sessions (store w)
             /\ calls (snd (@Raise JSONResponse e, w)) = calls w
             /\ Forall2
                  (fun old new =>
                     new = old
                     \/ (id old = message_id
                         /\ id new = id old
                         /\ session_id new = session_id old
                         /\ character_name new = character_name old
                         /\ message new = message old
                         /\ timestamp new = timestamp old
                         /\ is_deleted new = true))
                  (messages (store w))
                  (messages (store (snd (@Raise JSONResponse e, w))))
             /\ (is_deleted m = true -> snd (@Raise JSONResponse e, w) = w)).
  { intros e. cbn [snd]. repeat split. apply Forall2_same. now left. }
  destruct (refusal _ _ _) as [e|]; [apply Hsame|].
  rewrite Hfind.
  destruct (is_deleted m); cbn [fst snd store sessions messages calls].
  - repeat split. apply Forall2_same. now left.
  - destruct (refusal _ _ _) as [e|]; [apply Hsame|].
    cbn [fst snd store sessions messages calls].
    repeat split; [|discriminate].
    eapply Forall2_impl; [|apply mark_deleted_frame].
    intros old new [->|[Hid ->]]; [now left|right].
    now repeat split.
Qed.

(** ** Listing messages *)

(** C3, as the code has it.  In every state the service can reach, as long
    as the store runs the two queries of the route: for a session id in the
    signed 64-bit range, a listing for an id that no session has fails with
    404 and touches nothing, and a listing for an id some session has
    answers 200 with one entry (id, character name, text) for each row of
    that session whose [is_deleted] is false and for no other row, in
    strictly increasing id order; for an id outside that range the route
    fails with 500. *)
Theorem get_messages_lists_live_rows_by_id :
  forall env rs sid,
    let w := run env rs initial in
    store_fault env (SelectSession sid) = None ->
    store_fault env (SelectMessages sid) = None ->
    (int64 sid = true ->
     ((forall s, In s (sessions (store w)) -> s_id s <> sid) ->
      get_messages env sid w = (Raise (HTTPException 404 "会话ID不存在"), w))
     /\ ((exists s, In s (sessions (store w)) /\ s_id s = sid) ->
         exists rows,
           get_messages env sid w
           = (Return (mk_response 200
                        (VDict [("message", VStr "获取指定会话中的所有消息成功");
                                ("messages",
                                 VList (map shown_message rows))]%string)),
              w)
           /\ (forall m, In m rows <->
                         In m (messages (store w))
                         /\ session_id m = sid /\ is_deleted m = false)
           /\ StronglySorted Z.lt (map id rows)))
    /\ (int64 sid = false ->
        get_messages env sid w = (Raise (HTTPException 500 "未知错误"), w)).
Proof.
  intros env rs sid w Hsession Hmessages. split.
  - intros Hrange.
    pose proof (refusal_runs env _ sid Hsession Hrange) as Hs.
    pose proof (refusal_runs env _ sid Hmessages Hrange) as Hm.
    split.
    + intros Hnone. rewrite get_messages_eq, Hs.
      now rewrite (find_key_none s_id sid _ Hnone).
    + intros Hex. rewrite get_messages_eq, Hs.
      destruct (find_key_some s_id sid _ Hex) as [s [-> _]].
      rewrite Hm, messages_ok_shown.
      eexists. split; [reflexivity|]. split.
      * intros m. now rewrite filter_In, live_message_iff.
      * apply sorted_filter. apply (reachable_wf env rs).
  - intros Hrange. rewrite get_messages_eq.
    now rewrite (refusal_overflow env _ sid Hsession Hrange).
Qed.

(** C3, as stated, fails: no session has the id 2^63, the store is sound,
    and the route answers 500 where the claim says NotFound. *)
Lemma get_messages_out_of_range :
  get_messages (Example.answering "world") (2 ^ 63) initial
  = (Raise (HTTPException 500 "未知错误"), initial)
  /\ ~ unknown_session_is_not_found (Example.answering "world").
Proof.
  split; [reflexivity|].
  intros H. specialize (H (2 ^ 63) initial). simpl in H.
  assert (Hnone : forall s : Session, False -> s_id s <> 2 ^ 63) by tauto.
  specialize (H Hnone). discriminate H.
Qed.

(** ** Deleting a session *)

(** C8, as the code has it.  As long as the store runs the two statements of
    the route: for a session id in the signed 64-bit range, deleting an id
    that no session has fails with 404 and touches nothing, and deleting an
    id some session has succeeds whatever the session's [active] flag was:
    the session row stays, inactive; a second delete succeeds again and
    changes nothing; no listing of sessions shows an entry of that session;
    the message rows are untouched and the listing of the session's
    messages answers as before.  For an id outside that range the route
    fails with 500. *)
Theorem delete_session_deactivates :
  forall env sid w,
    store_fault env (SelectSession sid) = None ->
    store_fault env (CommitSessionInactive sid) = None ->
    (int64 sid = true ->
     ((forall s, In s (sessions (store w)) -> s_id s <> sid) ->
      delete_session env sid w = (Raise (HTTPException 404 "会话ID不存在"), w))
     /\ ((exists s, In s (sessions (store w)) /\ s_id s = sid) ->
         let w1 := snd (delete_session env sid w) in
         fst (delete_session env sid w)
         = Return (mk_response 200
                     (VDict [("message", VStr "会话已成功删除")]%string))
         /\ (forall s, In s (sessions (store w1)) -> s_id s = sid ->
                       active s = false)
         /\ map s_id (sessions (store w1)) = map s_id (sessions (store w))
         /\ delete_session env sid w1
            = (Return (mk_response 200
                         (VDict [("message", VStr "会话已成功删除")]%string)),
               w1)
         /\ (forall r w2,
               list_sessions env w1 = (Return r, w2) ->
               exists rows,
                 getitem_key (content r) "sessions"
                 = Return (VList (map shown_session rows))
                 /\ forall s, In s rows -> s_id s <> sid)
         /\ messages (store w1) = messages (store w)
         /\ fst (get_messages env sid w1) = fst (get_messages env sid w)
         /\ (store_fault env (SelectMessages sid) = None ->
             get_messages env sid w1
             = (Return
                  (mk_response 200
                     (VDict [("message", VStr "获取指定会话中的所有消息成功");
                             ("messages",
                              VList (map shown_message
                                         (filter (live_message sid)
                                                 (messages (store w)))))]%string)),
                w1))))
    /\ (int64 sid = false ->
        delete_session env sid w
        = (Raise (HTTPException 500 "删除会话失败"), w)).
Proof.
  intros env sid w Hsel Hcommit. split.
  - intros Hrange.
    pose proof (refusal_runs env _ sid Hsel Hrange) as Hsel'.
    pose proof (refusal_runs env _ sid Hcommit Hrange) as Hcommit'.
    split.
    + intros Hnone. rewrite delete_session_eq, Hsel'.
      now rewrite (find_key_none s_id sid _ Hnone).
    + intros Hex. cbv zeta. rewrite delete_session_eq, Hsel'.
      destruct (find_key_some s_id sid _ Hex) as [s [Hfind [Hin Hid]]].
      rewrite Hfind, Hcommit'. cbn [fst snd].
      set (w1 := mk_world _ _).
      assert (Hex1 : exists s', In s' (sessions (store w1)) /\ s_id s' = sid).
      { exists (set_active false s). split; [|exact Hid].
        cbn [w1 store sessions]. unfold mark_inactive. apply in_map_iff.
        exists s. split; [|exact Hin].
        apply Z.eqb_eq in Hid. now rewrite Hid. }
      destruct (find_key_some s_id sid _ Hex1) as [s1 [Hfind1 _]].
      split; [reflexivity|]. split.
      { intros s'. apply in_mark_inactive. }
      split; [apply mark_inactive_ids|]. split.
      { rewrite delete_session_eq, Hsel', Hfind1, Hcommit'.
        cbn [w1 store sessions messages calls].
        now rewrite mark_inactive_twice. }
      split.
      { intros r w2. rewrite list_sessions_eq.
        destruct (refusal env SelectActiveSessions []); [discriminate|].
        rewrite sessions_ok_shown. intros Heq.
        assert (Hr : content r
                     = VDict [("message", VStr "获取所有会话id成功");
                              ("sessions",
                               VList (map shown_session
                                          (filter (fun s => Bool.eqb (active s) true)
                                                  (sessions (store w1)))))]%string)
          by (injection Heq as <-; reflexivity).
        rewrite Hr. eexists. split; [reflexivity|].
        intros s' Hs' Hid'. apply filter_In in Hs'. destruct Hs' as [Hs' Hact].
        cbn [w1 store sessions] in Hs'.
        rewrite (in_mark_inactive sid _ s' Hs' Hid') in Hact. discriminate. }
      split; [reflexivity|]. split.
      { rewrite !get_messages_eq, Hsel', Hfind1, Hfind.
        now destruct (refusal env (SelectMessages sid) [sid]). }
      intros Hlist. rewrite get_messages_eq, Hsel', Hfind1.
      rewrite (refusal_runs env _ sid Hlist Hrange).
      now rewrite messages_ok_shown.
  - intros Hrange. rewrite delete_session_eq.
    now rewrite (refusal_overflow env _ sid Hsel Hrange).
Qed.

(** C8, as stated, fails: no session has the id 2^63, the store is sound,
    and the route answers 500 where the claim says NotFound. *)
Lemma delete_session_out_of_range :
  delete_session (Example.answering "world") (2 ^ 63) initial
  = (Raise (HTTPException 500 "删除会话失败"), initial)
  /\ ~ unknown_session_is_not_deleted (Example.answering "world").
Proof.
  split; [reflexivity|].
  intros H. specialize (H (2 ^ 63) initial). simpl in H.
  assert (Hnone : forall s : Session, False -> s_id s <> 2 ^ 63) by tauto.
  specialize (H Hnone). discriminate H.
Qed.

(** ** A chat turn *)

Lemma reply_content_returns (j x : value) :
  reply_content j = Return x <-> completion_content j x.
Proof.
  unfold completion_content. split.
  - unfold reply_content, getitem_key, getitem_0.
    destruct j as [| | | | | |items]; try discriminate.
    destruct (dict_get items "choices") as [choices|] eqn:H1; [|discriminate].
    destruct choices as [| | | |s|l|ds]; try discriminate.
    + destruct s; discriminate.
    + destruct l as [|choice rest]; [discriminate|].
      destruct choice as [| | | | | |choice]; try discriminate.
      destruct (dict_get choice "message") as [msg|] eqn:H2; [|discriminate].
      destruct msg as [| | | | | |msg]; try discriminate.
      destruct (dict_get msg "content") as [y|] eqn:H3; [|discriminate].
      intros [= <-]. now exists items, choice, rest, msg.
  - intros [items [choice [rest [msg [-> [H1 [H2 H3]]]]]]].
    unfold reply_content, getitem_key, getitem_0.
    now rewrite H1, H2, H3.
Qed.

Lemma upstream_reply_eq (env : Env) (c : ChatSchema) (w : World) :
  upstream_reply env c w =
  match aio_post env (List.length (calls w)) (chat_request env c (store w)) with
  | AioResponse status reason body =>
      if 400 <=? status then Raise (HTTPException status reason)
      else match body with
           | BodyJson j => reply_content j
           | BodyContentType msg => Raise (HTTPException status msg)
           | BodyInvalid what =>
               Raise (HTTPException 500
                        ("未预期的错误: " ++ model_name (config env)
                         ++ ", 错误信息: " ++ exc_str env (OtherError what))%string)
           end
  | AioClientError what =>
      Raise (HTTPException 400
               ("API 请求异常: " ++ model_name (config env)
                ++ ", 错误信息: " ++ exc_str env (ClientError what))%string)
  | AioOtherError what =>
      Raise (HTTPException 500
               ("未预期的错误: " ++ model_name (config env)
                ++ ", 错误信息: " ++ exc_str env (OtherError what))%string)
  end.
Proof.
  unfold upstream_reply, async_call_openai_chat_api, aiohttp_round_trip.
  unfold_monad. fold (chat_request env c (store w)).
  destruct (aio_post _ _ _) as [status reason body| |]; cbn [fst].
  - destruct (400 <=? status); cbn [fst]; [reflexivity|].
    destruct body; reflexivity.
  - reflexivity.
  - reflexivity.
Qed.

(** The reply of a turn is what the endpoint's body holds. *)
Lemma upstream_reply_returns (env : Env) (c : ChatSchema) (w : World)
      (ai : value) :
  upstream_reply env c w = Return ai <->
  exists status reason j,
    aio_post env (List.length (calls w)) (chat_request env c (store w))
    = AioResponse status reason (BodyJson j)
    /\ status < 400
    /\ completion_content j ai.
Proof.
  rewrite upstream_reply_eq. split.
  - destruct (aio_post _ _ _) as [status reason body| |]; try discriminate.
    destruct (400 <=? status) eqn:Hs; [discriminate|].
    apply Z.leb_gt in Hs. destruct body as [j| |]; try discriminate.
    intros Hj. apply reply_content_returns in Hj. now exists status, reason, j.
  - intros [status [reason [j [-> [Hs Hj]]]]].
    apply Z.leb_gt in Hs. rewrite Hs. now apply reply_content_returns.
Qed.

Lemma reply_content_errors (j : value) (e : exn) :
  reply_content j = Raise e -> e = KeyError \/ e = IndexError \/ e = TypeError.
Proof.
  assert (Hkey : forall v k e', getitem_key v k = Raise e' ->
                                e' = KeyError \/ e' = TypeError).
  { intros v k e'. unfold getitem_key.
    destruct v as [| | | | |l|items]; try (intros [= <-]; now right).
    destruct (dict_get items k); [discriminate|]. intros [= <-]. now left. }
  assert (H0 : forall v e', getitem_0 v = Raise e' ->
                            e' = KeyError \/ e' = IndexError \/ e' = TypeError).
  { intros v e'. unfold getitem_0.
    destruct v as [| | | |s|l|items]; try (intros [= <-]; tauto).
    - destruct s; [intros [= <-]; tauto|discriminate].
    - destruct l; [intros [= <-]; tauto|discriminate]. }
  unfold reply_content.
  destruct (getitem_key j "choices") as [choices|e1] eqn:H1.
  - destruct (getitem_0 choices) as [choice|e2] eqn:H2.
    + destruct (getitem_key choice "message") as [msg|e3] eqn:H3.
      * intros H. apply Hkey in H. tauto.
      * intros [= <-]. apply Hkey in H3. tauto.
    + intros [= <-]. now apply H0 in H2.
  - intros [= <-]. apply Hkey in H1. tauto.
Qed.

Lemma failed_call_raises (env : Env) (c : ChatSchema) (w : World) (status : Z) :
  failed_call
    (aio_post env (List.length (calls w)) (chat_request env c (store w)))
    status ->
  400 <= status
  /\ exists e detail,
      upstream_reply env c w = Raise e
      /\ chat_except e = HTTPException status detail.
Proof.
  rewrite upstream_reply_eq.
  remember (aio_post env (List.length (calls w)) (chat_request env c (store w)))
    as tr eqn:Htr.
  clear Htr. intros Hfail.
  destruct Hfail as [what|what|st reason body Hst|st reason what Hst
                     |st reason j Hst Hj].
  - split; [lia|]. now do 2 eexists.
  - split; [lia|]. now do 2 eexists.
  - split; [exact Hst|]. apply Z.leb_le in Hst. rewrite Hst. now do 2 eexists.
  - split; [lia|]. apply Z.leb_gt in Hst. rewrite Hst. now do 2 eexists.
  - split; [lia|]. apply Z.leb_gt in Hst. rewrite Hst.
    destruct (reply_content j) as [x|e] eqn:Hx.
    + apply reply_content_returns in Hx. now apply Hj in Hx.
    + exists e. apply reply_content_errors in Hx.
      destruct Hx as [->|[->| ->]]; now eexists.
Qed.

Lemma chat_except_is_http (e : exn) :
  exists status detail, chat_except e = HTTPException status detail.
Proof. destruct e; simpl; now do 2 eexists. Qed.

Lemma chat_with_openai_calls (env : Env) (c : ChatSchema) (w : World) :
  refusal env (SelectMessages (chat_session_id c)) [chat_session_id c] = None ->
  calls (snd (chat_with_openai env c w))
  = calls w ++ [mk_call (chat_request env c (store w)) (store w)].
Proof.
  intros Hsel. rewrite chat_with_openai_eq. cbv zeta. rewrite Hsel.
  destruct (upstream_reply env c w); [|reflexivity].
  case_refusal; [reflexivity|].
  destruct (bind_text _ _); [|reflexivity].
  case_refusal; [reflexivity|].
  case_refusal; [reflexivity|].
  now destruct (json_response _ _).
Qed.

(** X22.  In a chat turn whose history query runs: when the call of the
    completion endpoint fails because no response arrives, because the
    response has a status of 400 or more, or because the body of a response
    below 400 is not JSON or is JSON without [choices[0].message.content],
    the route raises an [HTTPException] with an error status (400 for a
    connection failure, the endpoint's own status when it is 400 or more,
    500 otherwise); when the body of a response below 400 has an unexpected
    content type, the route raises an [HTTPException] with the status of
    that response.  In both cases the store is what it was before the turn
    and every listing of messages answers as before. *)
Theorem chat_upstream_failure_persists_nothing :
  forall env c w,
    int64 (chat_session_id c) = true ->
    store_fault env (SelectMessages (chat_session_id c)) = None ->
    let w' := snd (chat_with_openai env c w) in
    let endpoint :=
      aio_post env (List.length (calls w)) (chat_request env c (store w)) in
    (forall status,
        failed_call endpoint status ->
        400 <= status
        /\ (exists detail,
               fst (chat_with_openai env c w)
               = Raise (HTTPException status detail))
        /\ store w' = store w
        /\ forall sid, fst (get_messages env sid w') = fst (get_messages env sid w))
    /\ (forall status reason msg,
           endpoint = AioResponse status reason (BodyContentType msg) ->
           status < 400 ->
           fst (chat_with_openai env c w) = Raise (HTTPException status msg)
           /\ store w' = store w
           /\ forall sid,
                fst (get_messages env sid w') = fst (get_messages env sid w)).
Proof.
  intros env c w Hrange Hfault. cbv zeta.
  pose proof (refusal_runs env _ _ Hfault Hrange) as Hsel.
  assert (Hlist : forall sid,
             fst (get_messages env sid (after_call env c w))
             = fst (get_messages env sid w)).
  { intros sid. rewrite !get_messages_eq. cbn [after_call store].
    case_refusal; [reflexivity|].
    destruct (find _ _); [|reflexivity].
    now case_refusal. }
  split.
  - intros status Hfail.
    destruct (failed_call_raises env c w status Hfail)
      as [Hstatus [e [detail [He Hexc]]]].
    rewrite chat_with_openai_eq. cbv zeta. rewrite Hsel, He. cbn [fst snd].
    rewrite Hexc. split; [exact Hstatus|]. split; [now exists detail|].
    split; [reflexivity|exact Hlist].
  - intros status reason msg Hpost Hstatus.
    rewrite chat_with_openai_eq. cbv zeta.
    rewrite Hsel, upstream_reply_eq, Hpost.
    apply Z.leb_gt in Hstatus. rewrite Hstatus. cbn [fst snd chat_except].
    split; [reflexivity|]. split; [reflexivity|exact Hlist].
Qed.

(** C2.  The completion endpoint answers a chat turn with status 200 and a
    page served as text/html.  The asynchronous client fails to decode the
    body and raises an [HTTPException] that carries the status of the
    response, 200; the chat route lets it through and the caller is
    answered with status 200 and an error message, so the failed turn is
    reported as a success.  Nothing is stored.  The synchronous client
    raises with status 400 for a body of the same response that it cannot
    decode. *)
Theorem chat_wrong_mimetype_answers_200 :
  let env := Replies.wrong_mimetype in
  let html :=
    "Attempt to decode JSON with unexpected mimetype: text/html"%string in
  fst (async_call_openai_chat_api
         env (model_name (config env))
         (chat_history Example.hello (store initial))
         (api_key (config env)) None None None None None initial)
  = Raise (HTTPException 200 html)
  /\ app env (PostChat Example.hello) initial
     = (mk_response 200
          (VDict [("message", VStr ("服务器错误" ++ html)%string);
                  ("exception_detail",
                   VList (map VStr Example.traceback))]%string),
        after_call env Example.hello initial)
  /\ store (after_call env Example.hello initial) = store initial
  /\ ~ failed_call_answers_error env
  /\ exists detail,
      fst (call_openai_chat_api
             env (model_name (config env))
             (chat_history Example.hello (store initial))
             (api_key (config env)) None None None None None initial)
      = Raise (HTTPException 400 detail).
Proof.
  cbv zeta. split; [reflexivity|]. split; [reflexivity|].
  split; [reflexivity|]. split.
  - intros H.
    specialize (H Example.hello initial
                  (HTTPException
                     200
                     "Attempt to decode JSON with unexpected mimetype: text/html"%string)
                  eq_refl eq_refl).
    vm_compute in H. now apply H.
  - eexists. reflexivity.
Qed.

Lemma chat_success_inv (env : Env) (c : ChatSchema) (w w' : World)
      (r : JSONResponse) :
  chat_with_openai env c w = (Return r, w') ->
  exists ai text,
    int64 (chat_session_id c) = true
    /\ upstream_reply env c w = Return ai
    /\ bind_text env ai = Return text
    /\ r = mk_response
             200
             (chat_ok (user_row_of env c (messages (store w)))
                      (assistant_row_of
                         env c
                         (messages (store w)
                          ++ [user_row_of env c (messages (store w))])
                         text)
                      ai)
    /\ w' = mk_world
              (mk_db (sessions (store w))
                     (messages (store w)
                      ++ [user_row_of env c (messages (store w));
                          assistant_row_of
                            env c
                            (messages (store w)
                             ++ [user_row_of env c (messages (store w))])
                            text]))
              (calls (after_call env c w)).
Proof.
  rewrite chat_with_openai_eq. cbv zeta.
  destruct (refusal _ _ _) eqn:Hsel; [discriminate|].
  apply refusal_in_range in Hsel. destruct Hsel as [_ Hrange].
  destruct (upstream_reply env c w) as [ai|e]; [|discriminate].
  case_refusal; [discriminate|].
  destruct (bind_text env ai) as [text|e] eqn:Hbind; [|discriminate].
  case_refusal; [discriminate|].
  case_refusal; [discriminate|].
  destruct (json_response _ _) as [r0|e] eqn:Hr; [|discriminate].
  intros Heq. exists ai, text.
  unfold json_response in Hr. destruct (finite_floats _); [|discriminate].
  assert (Hr0 : r0 = r) by congruence.
  assert (Hw : w' = mk_world
                      (mk_db (sessions (store w))
                             (messages (store w)
                              ++ [user_row_of env c (messages (store w));
                                  assistant_row_of
                                    env c
                                    (messages (store w)
                                     ++ [user_row_of env c (messages (store w))])
                                    text]))
                      (calls (after_call env c w))) by congruence.
  subst r0. repeat split; try assumption; congruence.
Qed.

Lemma next_rowid_snoc_gt (ids : list Z) :
  next_rowid ids < next_rowid (ids ++ [next_rowid ids]).
Proof. apply next_rowid_fresh. apply in_or_app. right. now left. Qed.

(** C5.  A chat turn that succeeds appends exactly two rows to the messages
    table in one step, the user's message and then the assistant's reply;
    both ids are new and the user's is the smaller one.  The reply is what
    the endpoint's body holds at [choices[0].message.content]: it is what
    the assistant's row keeps (as it is, when it is a text) and what the
    answer carries, next to status 200, the two ids and the character name
    "assistant". *)
Theorem chat_turn_pairs_messages :
  forall env c w r w',
    chat_with_openai env c w = (Return r, w') ->
    exists status reason j ai u a,
      (aio_post env (List.length (calls w)) (chat_request env c (store w))
       = AioResponse status reason (BodyJson j)
       /\ status < 400
       /\ completion_content j ai)
      /\ messages (store w') = messages (store w) ++ [u; a]
      /\ sessions (store w') = sessions (store w)
      /\ (forall m, In m (messages (store w)) -> id m < id u)
      /\ id u < id a
      /\ (session_id u = chat_session_id c
          /\ character_name u = "user"%string
          /\ message u = Some (user_message c)
          /\ is_deleted u = false)
      /\ (session_id a = chat_session_id c
          /\ character_name a = "assistant"%string
          /\ bind_text env ai = Return (message a)
          /\ (forall text, ai = VStr text -> message a = Some text)
          /\ is_deleted a = false)
      /\ status_code r = 200
      /\ getitem_key (content r) "user_message_id" = Return (VInt (id u))
      /\ getitem_key (content r) "ai_message_id" = Return (VInt (id a))
      /\ getitem_key (content r) "response" = Return ai
      /\ getitem_key (content r) "character_name" = Return (VStr "assistant").
Proof.
  intros env c w r w' Hchat.
  destruct (chat_success_inv env c w w' r Hchat)
    as [ai [text [_ [Hai [Hbind [-> ->]]]]]].
  apply upstream_reply_returns in Hai.
  destruct Hai as [status [reason [j Hj]]].
  exists status, reason, j, ai. do 2 eexists.
  split; [exact Hj|]. split; [reflexivity|]. split; [reflexivity|].
  split.
  { intros m Hm. cbn [user_row_of id]. apply next_rowid_fresh.
    now apply in_map. }
  split.
  { unfold assistant_row_of, user_row_of. cbn [id]. rewrite map_app.
    cbn [map id]. apply next_rowid_snoc_gt. }
  split; [now repeat split|]. split.
  { split; [reflexivity|]. split; [reflexivity|]. split; [exact Hbind|].
    split; [|reflexivity].
    intros s ->. cbn in Hbind. cbn. congruence. }
  now repeat split.
Qed.

(** C7.  A chat turn whose history query runs calls the completion endpoint
    once, while the store is still what it was before the turn.  The
    messages it sends are the session's rows that are not deleted, in table
    order, each with its text as content and with role "system" when its
    character name is "assistant" and role "user" otherwise, followed by
    the new text with role "user".  A turn whose history query does not run
    (the store fails it, or the session id is outside the signed 64-bit
    range) calls nothing and stores nothing. *)
Theorem chat_history_maps_roles :
  forall env c w,
    let sid := chat_session_id c in
    let rows := filter (live_message sid) (messages (store w)) in
    (int64 sid = true ->
     store_fault env (SelectMessages sid) = None ->
     exists rq,
       calls (snd (chat_with_openai env c w))
       = calls w ++ [mk_call rq (store w)]
       /\ getitem_key (req_json rq) "messages"
          = Return (VList (map sent_message rows
                           ++ [VDict [("role", VStr "user");
                                      ("content", VStr (user_message c))]%string])))
    /\ (forall m, In m rows <->
                  In m (messages (store w))
                  /\ session_id m = sid /\ is_deleted m = false)
    /\ (forall e,
          refusal env (SelectMessages sid) [sid] = Some e ->
          snd (chat_with_openai env c w) = w
          /\ exists detail,
              fst (chat_with_openai env c w)
              = Raise (HTTPException 500 detail)).
Proof.
  intros env c w sid rows. split; [|split].
  - intros Hrange Hfault. exists (chat_request env c (store w)). split.
    + apply chat_with_openai_calls. now apply refusal_runs.
    + unfold chat_request, getitem_key. cbn [req_json].
      change (dict_get (payload (model_name (config env))
                                (chat_history c (store w))
                                None None None None None) "messages")
        with (Some (VList (chat_history c (store w)))).
      cbv beta iota. unfold chat_history.
      now rewrite (map_ext _ _ history_entry_sent).
  - intros m. unfold rows. now rewrite filter_In, live_message_iff.
  - intros e He. rewrite chat_with_openai_eq. cbv zeta. fold sid.
    rewrite He. cbn [fst snd]. split; [reflexivity|].
    unfold refusal in He.
    destruct (store_fault env (SelectMessages sid)) as [f|].
    + injection He as <-. destruct f; now eexists.
    + destruct (forallb int64 [sid]); [discriminate|].
      injection He as <-. now eexists.
Qed.

(** C1.  A chat turn for session 1 in a store without any session: the
    completion endpoint is called, the turn answers 200, and two messages
    that belong to no session are stored. *)
Theorem chat_unknown_session_calls_client :
  sessions (store initial) = []
  /\ get_messages (Example.answering "world") 1 initial
     = (Raise (HTTPException 404 "会话ID不存在"), initial)
  /\ fst (chat_with_openai (Example.answering "world") Example.hello initial)
     = Return (mk_response 200
                 (chat_ok Example.user_row Example.assistant_row (VStr "world")))
  /\ List.length
       (calls (snd (chat_with_openai (Example.answering "world")
                                     Example.hello initial))) = 1%nat
  /\ messages (store (snd (chat_with_openai (Example.answering "world")
                                            Example.hello initial)))
     = [Example.user_row; Example.assistant_row].
Proof. repeat split. Qed.

(** ** What a failure shows to the caller *)

Lemma route_raises_http (env : Env) (r : request) (w w' : World) (exc : exn) :
  route env r w = (Raise exc, w') ->
  exists status detail, exc = HTTPException status detail.
Proof.
  assert (Hcs : forall e, exists status detail,
               create_session_except e = HTTPException status detail)
    by (intros e; destruct e; simpl; now do 2 eexists).
  assert (Hls : forall e, exists status detail,
               list_sessions_except e = HTTPException status detail)
    by (intros e; destruct e; simpl; now do 2 eexists).
  assert (Hds : forall e, exists status detail,
               delete_session_except e = HTTPException status detail)
    by (intros e; destruct e; simpl; now do 2 eexists).
  assert (Hgm : forall e, exists status detail,
               get_messages_except e = HTTPException status detail)
    by (intros e; destruct e; simpl; now do 2 eexists).
  assert (Hdm : forall e, exists status detail,
               delete_message_except e = HTTPException status detail)
    by (intros e; destruct e; simpl; now do 2 eexists).
  pose proof chat_except_is_http as Hch.
  destruct r as [nm| |sid|c|sid|mid]; unfold route.
  - rewrite create_session_eq. cbv zeta.
    case_refusal; [intros [= <- _]; apply Hcs|].
    case_refusal; [intros [= <- _]; apply Hcs|discriminate].
  - rewrite list_sessions_eq.
    case_refusal; [intros [= <- _]; apply Hls|discriminate].
  - rewrite delete_session_eq.
    case_refusal; [intros [= <- _]; apply Hds|].
    destruct (find _ _); [|intros [= <- _]; now do 2 eexists].
    case_refusal; [intros [= <- _]; apply Hds|discriminate].
  - rewrite chat_with_openai_eq. cbv zeta.
    case_refusal; [intros [= <- _]; apply Hch|].
    destruct (upstream_reply env c w) as [ai|e];
      [|intros [= <- _]; apply Hch].
    case_refusal; [intros [= <- _]; apply Hch|].
    destruct (bind_text env ai) as [text|e]; [|intros [= <- _]; apply Hch].
    case_refusal; [intros [= <- _]; apply Hch|].
    case_refusal; [intros [= <- _]; apply Hch|].
    destruct (json_response _ _); [discriminate|].
    intros [= <- _]. now do 2 eexists.
  - rewrite get_messages_eq.
    case_refusal; [intros [= <- _]; apply Hgm|].
    destruct (find _ _); [|intros [= <- _]; now do 2 eexists].
    case_refusal; [intros [= <- _]; apply Hgm|discriminate].
  - rewrite delete_message_eq.
    case_refusal; [intros [= <- _]; apply Hdm|].
    destruct (find _ _) as [m|]; [|intros [= <- _]; now do 2 eexists].
    destruct (is_deleted m); [discriminate|].
    case_refusal; [intros [= <- _]; apply Hdm|discriminate].
Qed.



(* ================================================================== *)
(** * The theorems at work on one conversation

    A session named Test is created and one turn ("hello", answered by
    "world") is held in it; [Example.one_turn] is that history. *)

Lemma one_turn_store :
  store (run (Example.answering "world") Example.one_turn initial)
  = mk_db [mk_session 1 true (Some "Test"%string)]
          [Example.user_row; Example.assistant_row].
Proof. reflexivity. Qed.

Lemma get_messages_witness :
  let env := Example.answering "world" in
  let w := run env Example.one_turn initial in
  get_messages env 7 w = (Raise (HTTPException 404 "会话ID不存在"), w)
  /\ (exists rows,
        get_messages env 1 w
        = (Return (mk_response 200
                     (VDict [("message", VStr "获取指定会话中的所有消息成功");
                             ("messages",
                              VList (map shown_message rows))]%string)),
           w)
        /\ StronglySorted Z.lt (map id rows))
  /\ get_messages env (2 ^ 63) w = (Raise (HTTPException 500 "未知错误"), w).
Proof.
  split; [|split].
  - apply (get_messages_lists_live_rows_by_id
             (Example.answering "world") Example.one_turn 7
             eq_refl eq_refl); [reflexivity|].
    intros s Hin. simpl in Hin. destruct Hin as [<-|[]]. discriminate.
  - destruct (proj1 (get_messages_lists_live_rows_by_id
                       (Example.answering "world") Example.one_turn 1
                       eq_refl eq_refl) eq_refl) as [_ H].
    destruct H as [rows [Hlist [_ Hsorted]]].
    + eexists. split; [left; reflexivity|reflexivity].
    + exists rows. split; [exact Hlist|exact Hsorted].
  - apply (get_messages_lists_live_rows_by_id
             (Example.answering "world") Example.one_turn (2 ^ 63)
             eq_refl eq_refl). reflexivity.
Defined.

Lemma delete_message_witness :
  let env := Example.answering "world" in
  let w := run env Example.one_turn initial in
  let w1 := snd (delete_message env 1 w) in
  (fst (delete_message env 1 w)
   = Return (mk_response 200 (VDict [("message", VStr "消息已成功删除")]%string))
   /\ delete_message env 1 w1
      = (Return (mk_response 200
                   (VDict [("message", VStr "消息已成功删除")]%string)), w1))
  /\ delete_message env 9 w = (Raise (HTTPException 404 "消息ID不存在"), w)
  /\ delete_message env (2 ^ 63) w = (Raise (HTTPException 500 "未知错误"), w).
Proof.
  split; [|split].
  - assert (Hex : exists m,
               In m (messages (store (run (Example.answering "world")
                                          Example.one_turn initial)))
               /\ id m = 1).
    { exists Example.user_row. split; [left; reflexivity|reflexivity]. }
    destruct (proj1 (proj1 (delete_message_idempotent
                              (Example.answering "world") Example.one_turn 1
                              eq_refl eq_refl) eq_refl) Hex)
      as [Hfirst [_ [_ [Hsecond _]]]].
    split; [exact Hfirst|exact Hsecond].
  - apply (delete_message_idempotent
             (Example.answering "world") Example.one_turn 9
             eq_refl eq_refl); [reflexivity|].
    intros m Hin. simpl in Hin.
    destruct Hin as [<-|[<-|[]]]; discriminate.
  - apply (delete_message_idempotent
             (Example.answering "world") Example.one_turn (2 ^ 63)
             eq_refl eq_refl). reflexivity.
Defined.

Lemma delete_message_frame_witness :
  let env := Example.answering "world" in
  let w := run env Example.one_turn initial in
  find (fun r => id r =? 1) (messages (store w)) = Some Example.user_row
  /\ sessions (store (snd (delete_message env 1 w))) = sessions (store w)
  /\ calls (snd (delete_message env 1 w)) = calls w.
Proof.
  split; [reflexivity|].
  destruct (delete_message_frame
              (Example.answering "world") 1
              (run (Example.answering "world") Example.one_turn initial)
              Example.user_row eq_refl) as [Hs [Hc _]].
  split; [exact Hs|exact Hc].
Defined.

Lemma delete_session_witness :
  let env := Example.answering "world" in
  let w := run env Example.one_turn initial in
  let w1 := snd (delete_session env 1 w) in
  (fst (delete_session env 1 w)
   = Return (mk_response 200 (VDict [("message", VStr "会话已成功删除")]%string))
   /\ messages (store w1) = messages (store w))
  /\ delete_session env 7 w = (Raise (HTTPException 404 "会话ID不存在"), w)
  /\ delete_session env (2 ^ 63) w
     = (Raise (HTTPException 500 "删除会话失败"), w).
Proof.
  split; [|split].
  - assert (Hex : exists s,
               In s (sessions (store (run (Example.answering "world")
                                          Example.one_turn initial)))
               /\ s_id s = 1).
    { eexists. split; [left; reflexivity|reflexivity]. }
    destruct (proj2 (proj1 (delete_session_deactivates
                              (Example.answering "world") 1
                              (run (Example.answering "world")
                                   Example.one_turn initial)
                              eq_refl eq_refl) eq_refl) Hex)
      as [Hfirst [_ [_ [_ [_ [Hmsgs _]]]]]].
    split; [exact Hfirst|exact Hmsgs].
  - apply (delete_session_deactivates
             (Example.answering "world") 7
             (run (Example.answering "world") Example.one_turn initial)
             eq_refl eq_refl); [reflexivity|].
    intros s Hin. simpl in Hin. destruct Hin as [<-|[]]. discriminate.
  - apply (delete_session_deactivates
             (Example.answering "world") (2 ^ 63)
             (run (Example.answering "world") Example.one_turn initial)
             eq_refl eq_refl). reflexivity.
Defined.

Lemma chat_turn_witness :
  exists u a,
    messages (store (snd (chat_with_openai (Example.answering "world")
                                           Example.hello initial)))
    = messages (store initial) ++ [u; a]
    /\ id u < id a
    /\ message a = Some "world"%string.
Proof.
  destruct (chat_turn_pairs_messages
              (Example.answering "world") Example.hello initial _ _ eq_refl)
    as [status [reason [j [ai [u [a [[Hpost [_ Hcontent]]
                                      [Hrows [_ [_ [Hlt [_ [Ha _]]]]]]]]]]]]].
  exists u, a. split; [exact Hrows|]. split; [exact Hlt|].
  destruct Ha as [_ [_ [_ [Htext _]]]]. apply Htext.
  injection Hpost as _ _ <-.
  destruct Hcontent as [items [choice [rest [msg [Hj [H1 [H2 H3]]]]]]].
  injection Hj as <-. injection H1 as <- _.
  injection H2 as <-. injection H3 as <-. reflexivity.
Defined.

Lemma chat_history_witness :
  let env := Example.answering "world" in
  let w := run env Example.one_turn initial in
  exists rq,
    calls (snd (chat_with_openai env Example.hello w))
    = calls w ++ [mk_call rq (store w)]
    /\ getitem_key (req_json rq) "messages"
       = Return (VList [VDict [("role", VStr "user");
                               ("content", VStr "hello")];
                        VDict [("role", VStr "system");
                               ("content", VStr "world")];
                        VDict [("role", VStr "user");
                               ("content", VStr "hello")]]%string).
Proof.
  exact (proj1 (chat_history_maps_roles
                  (Example.answering "world") Example.hello
                  (run (Example.answering "world") Example.one_turn initial))
               eq_refl eq_refl).
Defined.


(* ================================================================== *)
(** * Further properties of the service *)

(** ** Row identifiers are dense *)

Lemma max_rowid_snoc (l : list Z) (x : Z) :
  (forall y, In y l -> y <= x) -> max_rowid (l ++ [x]) = Some x.
Proof.
  induction l as [|a l IH]; intros H; simpl; [reflexivity|].
  rewrite IH by (intros y Hy; apply H; now right).
  f_equal. specialize (H a (or_introl eq_refl)). lia.
Qed.

Lemma first_ids_S (n : nat) :
  first_ids (S n) = first_ids n ++ [Z.of_nat (S n)].
Proof. unfold first_ids. now rewrite seq_S, map_app. Qed.

Lemma first_ids_bound (n : nat) (y : Z) :
  In y (first_ids n) -> 1 <= y <= Z.of_nat n.
Proof.
  unfold first_ids. rewrite in_map_iff. intros [k [<- Hk]].
  apply in_seq in Hk. lia.
Qed.

Lemma next_rowid_first_ids (n : nat) :
  next_rowid (first_ids n) = Z.of_nat (S n).
Proof.
  unfold next_rowid. destruct n as [|n]; [reflexivity|].
  rewrite first_ids_S, max_rowid_snoc; [lia|].
  intros y Hy. apply first_ids_bound in Hy. lia.
Qed.

Lemma dense_snoc (ids : list Z) :
  ids = first_ids (List.length ids) ->
  ids ++ [next_rowid ids] = first_ids (List.length (ids ++ [next_rowid ids])).
Proof.
  intros H. rewrite length_app. simpl List.length. rewrite Nat.add_1_r.
  rewrite first_ids_S. rewrite H at 2.
  rewrite next_rowid_first_ids. now rewrite <- H.
Qed.

Lemma dense_rows {A} (key : A -> Z) (rows : list A) (r : A) :
  map key rows = first_ids (List.length rows) ->
  key r = next_rowid (map key rows) ->
  map key (rows ++ [r]) = first_ids (List.length (rows ++ [r])).
Proof.
  intros Hd Hr. rewrite map_app. simpl map. rewrite Hr.
  pose proof (dense_snoc (map key rows)) as H.
  rewrite length_map in H. rewrite (H Hd).
  f_equal. now rewrite !length_app, length_map.
Qed.

Lemma step_dense (env : Env) (db db' : Database) :
  dense_db db -> store_step env db db' -> dense_db db'.
Proof.
  intros [Hs Hm] Hstep. destruct Hstep; split; cbn [sessions messages];
    try assumption.
  - now apply dense_rows.
  - unfold mark_inactive at 2. now rewrite mark_inactive_ids, length_map.
  - unfold mark_deleted at 2. now rewrite mark_deleted_ids, length_map.
  - change [user_row_of env c (messages db);
            assistant_row_of env c
              (messages db ++ [user_row_of env c (messages db)]) text]
      with ([user_row_of env c (messages db)]
            ++ [assistant_row_of env c
                  (messages db ++ [user_row_of env c (messages db)]) text]).
    rewrite app_assoc. apply dense_rows; [|reflexivity].
    now apply dense_rows.
Qed.

(** X1.  Whatever requests the service has answered since the empty
    database, the ids of the n session rows are 1, 2, ..., n in table order,
    and so are the ids of the message rows: no id is skipped, reused or out
    of order, a failed turn consumes none. *)
Theorem ids_are_dense :
  forall env rs,
    let db := store (run env rs initial) in
    map s_id (sessions db)
    = map Z.of_nat (seq 1 (List.length (sessions db)))
    /\ map id (messages db)
       = map Z.of_nat (seq 1 (List.length (messages db))).
Proof.
  intros env rs.
  apply (run_invariant env dense_db (step_dense env) rs initial).
  now split.
Qed.

(** ** Rows are never removed or rewritten *)

Lemma Forall2_compose {A} (R : A -> A -> Prop) :
  (forall x y z, R x y -> R y z -> R x z) ->
  forall l1 l2 l3, Forall2 R l1 l2 -> Forall2 R l2 l3 -> Forall2 R l1 l3.
Proof.
  intros Htrans l1 l2 l3 H12. revert l3.
  induction H12 as [|x y l1 l2 Hxy _ IH]; intros l3 H23;
    inversion H23; subst; constructor; eauto.
Qed.

Lemma extends_refl {A} (kept : A -> A -> Prop) (rows : list A) :
  (forall x, kept x x) -> extends kept rows rows.
Proof.
  intros Hrefl. exists rows, []. split; [now rewrite app_nil_r|].
  now apply Forall2_same.
Qed.

Lemma extends_trans {A} (kept : A -> A -> Prop) (r1 r2 r3 : list A) :
  (forall x y z, kept x y -> kept y z -> kept x z) ->
  extends kept r1 r2 -> extends kept r2 r3 -> extends kept r1 r3.
Proof.
  intros Htrans [o2 [a2 [-> H12]]] [o3 [a3 [-> H23]]].
  apply Forall2_app_inv_l in H23.
  destruct H23 as [o2' [a2' [Ho [_ ->]]]].
  exists o2', (a2' ++ a3). split; [now rewrite app_assoc|].
  exact (Forall2_compose kept Htrans _ _ _ H12 Ho).
Qed.

Lemma message_kept_refl (m : Message) : message_kept m m.
Proof. unfold message_kept. now repeat split. Qed.

Lemma message_kept_trans (x y z : Message) :
  message_kept x y -> message_kept y z -> message_kept x z.
Proof. unfold message_kept. intuition congruence. Qed.

Lemma session_kept_refl (s : Session) : session_kept s s.
Proof. unfold session_kept. now repeat split. Qed.

Lemma session_kept_trans (x y z : Session) :
  session_kept x y -> session_kept y z -> session_kept x z.
Proof. unfold session_kept. intuition congruence. Qed.

Lemma step_extends_messages (env : Env) (db db' : Database) :
  store_step env db db' ->
  extends message_kept (messages db) (messages db').
Proof.
  intros Hstep. destruct Hstep; cbn [messages];
    try (apply extends_refl, message_kept_refl).
  - exists (mark_deleted message_id (messages db)), [].
    split; [now rewrite app_nil_r|].
    eapply Forall2_impl; [|apply mark_deleted_frame].
    intros old new [->|[_ ->]]; [apply message_kept_refl|].
    unfold message_kept. now repeat split.
  - eexists _, _. split; [reflexivity|].
    apply Forall2_same, message_kept_refl.
Qed.

Lemma step_extends_sessions (env : Env) (db db' : Database) :
  store_step env db db' ->
  extends session_kept (sessions db) (sessions db').
Proof.
  intros Hstep. destruct Hstep; cbn [sessions];
    try (apply extends_refl, session_kept_refl).
  - eexists _, _. split; [reflexivity|].
    apply Forall2_same, session_kept_refl.
  - exists (mark_inactive sid (sessions db)), [].
    split; [now rewrite app_nil_r|].
    eapply Forall2_impl; [|apply mark_inactive_frame].
    intros old new [->|[_ ->]]; [apply session_kept_refl|].
    unfold session_kept. now repeat split.
Qed.

(** X2.  No sequence of requests removes, reorders or rewrites a message:
    afterwards the table starts with the same rows in the same order, each
    with its id, session, character name, text and timestamp unchanged and
    still deleted if it was deleted, and anything else in the table comes
    after them. *)
Theorem messages_are_never_removed :
  forall env rs w,
    exists old' added,
      messages (store (run env rs w)) = old' ++ added
      /\ Forall2
           (fun old new =>
              id new = id old
              /\ session_id new = session_id old
              /\ character_name new = character_name old
              /\ message new = message old
              /\ timestamp new = timestamp old
              /\ (is_deleted old = true -> is_deleted new = true))
           (messages (store w)) old'.
Proof.
  intros env rs. change (forall w, extends message_kept (messages (store w))
                                    (messages (store (run env rs w)))).
  induction rs as [|r rs IH]; intros w; simpl.
  - apply extends_refl, message_kept_refl.
  - eapply extends_trans; [exact message_kept_trans| |apply IH].
    apply (step_extends_messages env), app_step.
Qed.

(** X3.  No sequence of requests removes, reorders or renames a session or
    makes an inactive session active again: afterwards the table starts
    with the same rows in the same order, each with its id and name
    unchanged and still inactive if it was inactive, and anything else in
    the table comes after them. *)
Theorem sessions_are_never_removed :
  forall env rs w,
    exists old' added,
      sessions (store (run env rs w)) = old' ++ added
      /\ Forall2
           (fun old new =>
              s_id new = s_id old
              /\ name new = name old
              /\ (active old = false -> active new = false))
           (sessions (store w)) old'.
Proof.
  intros env rs. change (forall w, extends session_kept (sessions (store w))
                                    (sessions (store (run env rs w)))).
  induction rs as [|r rs IH]; intros w; simpl.
  - apply extends_refl, session_kept_refl.
  - eapply extends_trans; [exact session_kept_trans| |apply IH].
    apply (step_extends_sessions env), app_step.
Qed.

(** ** Sessions *)

(** X4.  When the store runs the commit and the refresh of a new session,
    [create_session] answers 201 with an id larger than every id in the
    table and with the given name; the new row is active and goes last and
    the messages are untouched.  When the next listing of sessions runs, it
    shows one entry (id and name) for each session that was active before,
    in table order, and then the entry of the new session. *)
Theorem create_session_is_listed :
  forall env nm w,
    let i := next_rowid (map s_id (sessions (store w))) in
    let w1 := snd (create_session env nm w) in
    store_fault env (CommitNewSession nm) = None ->
    store_fault env (RefreshSession i) = None ->
    fst (create_session env nm w)
    = Return (mk_response 201
                (VDict [("message", VStr "创建会话成功");
                        ("session_id", VInt i);
                        ("session_name", match nm with
                                         | Some text => VStr text
                                         | None => VNone
                                         end)]%string))
    /\ (forall s, In s (sessions (store w)) -> s_id s < i)
    /\ sessions (store w1) = sessions (store w) ++ [mk_session i true nm]
    /\ messages (store w1) = messages (store w)
    /\ (store_fault env SelectActiveSessions = None ->
        list_sessions env w1
        = (Return
             (mk_response 200
                (VDict [("message", VStr "获取所有会话id成功");
                        ("sessions",
                         VList (map shown_session
                                    (filter (fun s => Bool.eqb (active s) true)
                                            (sessions (store w)))
                                ++ [VDict [("session_id", VInt i);
                                           ("session_name",
                                            match nm with
                                            | Some text => VStr text
                                            | None => VNone
                                            end)]]))]%string)),
           w1)).
Proof.
  intros env nm w. cbv zeta. intros Hcommit Hrefresh.
  rewrite create_session_eq. cbv zeta.
  rewrite (refusal_plain _ _ Hcommit). cbn [s_id].
  rewrite (refusal_plain _ _ Hrefresh). cbn [fst snd store sessions messages].
  split; [now destruct nm|]. split.
  { intros s Hs. apply next_rowid_fresh. now apply in_map. }
  split; [reflexivity|]. split; [reflexivity|].
  intros Hlist. rewrite list_sessions_eq, (refusal_plain _ _ Hlist).
  rewrite sessions_ok_shown. cbn [store sessions].
  rewrite filter_app, map_app. reflexivity.
Qed.

(** X5.  In every state the service can reach, when the store runs the
    query, the listing of sessions answers 200, changes nothing, and shows
    one entry (id and name) for each session whose [active] flag is true
    and for no other, in strictly increasing id order. *)
Theorem list_sessions_shows_active_by_id :
  forall env rs,
    let w := run env rs initial in
    store_fault env SelectActiveSessions = None ->
    exists rows,
      list_sessions env w
      = (Return (mk_response 200
                   (VDict [("message", VStr "获取所有会话id成功");
                           ("sessions",
                            VList (map shown_session rows))]%string)), w)
      /\ (forall s, In s rows <->
                    In s (sessions (store w)) /\ active s = true)
      /\ StronglySorted Z.lt (map s_id rows).
Proof.
  intros env rs w Hlist. eexists. split.
  - rewrite list_sessions_eq, (refusal_plain _ _ Hlist).
    now rewrite sessions_ok_shown.
  - split.
    + intros s. rewrite filter_In.
      destruct (active s); simpl; intuition congruence.
    + apply sorted_filter. apply (reachable_wf env rs).
Qed.

(** X6.  Deleting an existing session keeps every message row and the
    number and order of the session rows; a session row either stays as it
    was or carries the requested id, keeps its id and name, and is now
    inactive. *)
Theorem delete_session_frame :
  forall env sid w s,
    find (fun r => s_id r =? sid) (sessions (store w)) = Some s ->
    let w' := snd (delete_session env sid w) in
    messages (store w') = messages (store w)
    /\ calls w' = calls w
    /\ Forall2
         (fun old new =>
            new = old
            \/ (s_id old = sid
                /\ s_id new = s_id old
                /\ name new = name old
                /\ active new = false))
         (sessions (store w)) (sessions (store w')).
Proof.
  intros env sid w s Hfind. cbv zeta. rewrite delete_session_eq.
  assert (Hsame : Forall2
                    (fun old new =>
                       new = old
                       \/ (s_id old = sid
                           /\ s_id new = s_id old
                           /\ name new = name old
                           /\ active new = false))
                    (sessions (store w)) (sessions (store w))).
  { apply Forall2_same. now left. }
  case_refusal; [now repeat split|].
  rewrite Hfind. case_refusal; [now repeat split|].
  cbn [snd store sessions messages calls]. repeat split.
  eapply Forall2_impl; [|apply mark_inactive_frame].
  intros old new [->|[Hid ->]]; [now left|right]. now repeat split.
Qed.

(** ** Chat turns *)

(** X7.  After a chat turn that succeeds in a session that exists, when the
    store runs the two queries of the listing, the listing of that
    session's messages is the listing as it was before the turn followed by
    two more entries: one with the user's id, the character name "user" and
    the user's text, then one with the assistant's id, the character name
    "assistant" and the reply as the row keeps it, which is the endpoint's
    [choices[0].message.content] itself when that is a text. *)
Theorem chat_turn_is_listed :
  forall env c w r w',
    chat_with_openai env c w = (Return r, w') ->
    (exists s, In s (sessions (store w)) /\ s_id s = chat_session_id c) ->
    store_fault env (SelectSession (chat_session_id c)) = None ->
    store_fault env (SelectMessages (chat_session_id c)) = None ->
    exists before i k stored,
      get_messages env (chat_session_id c) w
      = (Return (mk_response 200
                   (VDict [("message", VStr "获取指定会话中的所有消息成功");
                           ("messages", VList before)]%string)), w)
      /\ get_messages env (chat_session_id c) w'
         = (Return
              (mk_response 200
                 (VDict [("message", VStr "获取指定会话中的所有消息成功");
                         ("messages",
                          VList (before
                                 ++ [VDict [("id", VInt i);
                                            ("character_name", VStr "user");
                                            ("message",
                                             VStr (user_message c))];
                                     VDict [("id", VInt k);
                                            ("character_name",
                                             VStr "assistant");
                                            ("message", stored)]]))]%string)),
            w')
      /\ getitem_key (content r) "user_message_id" = Return (VInt i)
      /\ getitem_key (content r) "ai_message_id" = Return (VInt k)
      /\ (forall text,
            getitem_key (content r) "response" = Return (VStr text) ->
            stored = VStr text).
Proof.
  intros env c w r w' Hchat Hex Hsession Hmessages.
  destruct (chat_success_inv env c w w' r Hchat)
    as [ai [text [Hrange [Hai [Hbind [-> ->]]]]]].
  pose proof (refusal_runs env _ _ Hsession Hrange) as Hs.
  pose proof (refusal_runs env _ _ Hmessages Hrange) as Hm.
  destruct (find_key_some s_id (chat_session_id c) _ Hex) as [s [Hfind _]].
  exists (map shown_message
              (filter (live_message (chat_session_id c)) (messages (store w)))).
  do 3 eexists. split; [|split].
  - rewrite get_messages_eq, Hs, Hfind, Hm. now rewrite messages_ok_shown.
  - rewrite get_messages_eq, Hs. cbn [store sessions messages].
    rewrite Hfind, Hm, messages_ok_shown.
    rewrite filter_app. cbn [filter]. unfold live_message at 2 3.
    cbn [user_row_of assistant_row_of session_id is_deleted].
    rewrite Z.eqb_refl. cbn [andb Bool.eqb]. rewrite map_app.
    reflexivity.
  - split; [reflexivity|]. split; [reflexivity|].
    intros s0 Hresp. cbn in Hresp. injection Hresp as ->.
    cbn in Hbind. injection Hbind as <-. reflexivity.
Qed.

(** X8.  A chat turn never reads the sessions table: in two stores that
    hold the same messages, whatever their sessions, the turn sends the same
    request, gives the same answer and stores the same messages, and it
    leaves the sessions as they are.  A turn in a deactivated session or in
    one that was never created runs like any other. *)
Theorem chat_ignores_sessions :
  forall env c ss ss' ms cs,
    let w := mk_world (mk_db ss ms) cs in
    let w' := mk_world (mk_db ss' ms) cs in
    fst (chat_with_openai env c w) = fst (chat_with_openai env c w')
    /\ messages (store (snd (chat_with_openai env c w)))
       = messages (store (snd (chat_with_openai env c w')))
    /\ map call_request (calls (snd (chat_with_openai env c w)))
       = map call_request (calls (snd (chat_with_openai env c w')))
    /\ sessions (store (snd (chat_with_openai env c w))) = ss.
Proof.
  intros env c ss ss' ms cs w w'.
  assert (Hreply : upstream_reply env c w = upstream_reply env c w').
  { now rewrite !upstream_reply_eq. }
  rewrite !chat_with_openai_eq. cbv zeta. rewrite <- Hreply.
  assert (Hcalls : map call_request (calls (after_call env c w))
                   = map call_request (calls (after_call env c w'))).
  { unfold after_call. cbn [calls]. now rewrite !map_app. }
  cbn [w w' store messages sessions] in *.
  case_refusal; [now repeat split|].
  destruct (upstream_reply env c w) as [ai|e]; [|now repeat split].
  case_refusal; [now repeat split|].
  destruct (bind_text env ai) as [text|e]; [|now repeat split].
  case_refusal; [now repeat split|].
  case_refusal; [now repeat split|].
  destruct (json_response _ _); now repeat split.
Qed.

(** X9.  In a chat turn whose history query and commit the store runs, when
    the endpoint's [choices[0].message.content] cannot be kept in the
    message column, the turn raises 500 after the endpoint was called and
    the store is what it was: the user's message is not kept without its
    reply.  A list or a dict is refused with the detail of a database
    failure, an integer outside the signed 64-bit range with the detail of
    an unknown failure. *)
Theorem chat_refused_reply_persists_nothing :
  forall env c w status reason j ai,
    int64 (chat_session_id c) = true ->
    store_fault env (SelectMessages (chat_session_id c)) = None ->
    store_fault env (CommitNewMessages (chat_session_id c)) = None ->
    aio_post env (List.length (calls w)) (chat_request env c (store w))
    = AioResponse status reason (BodyJson j) ->
    status < 400 ->
    completion_content j ai ->
    ((exists l, ai = VList l) \/ (exists items, ai = VDict items) ->
     chat_with_openai env c w
     = (Raise (HTTPException 500 "数据库操作或API调用失败"), after_call env c w))
    /\ (forall n, ai = VInt n -> int64 n = false ->
        chat_with_openai env c w
        = (Raise (HTTPException 500 "与OpenAI通信时发生未知错误"),
           after_call env c w))
    /\ store (after_call env c w) = store w
    /\ calls (after_call env c w)
       = calls w ++ [mk_call (chat_request env c (store w)) (store w)].
Proof.
  intros env c w status reason j ai Hrange Hsel Hcommit Hpost Hstatus Hj.
  assert (Hai : upstream_reply env c w = Return ai).
  { apply upstream_reply_returns. now exists status, reason, j. }
  assert (Hchat : forall e,
             bind_text env ai = Raise e ->
             chat_with_openai env c w
             = (Raise (chat_except e), after_call env c w)).
  { intros e He. rewrite chat_with_openai_eq. cbv zeta.
    rewrite (refusal_runs _ _ _ Hsel Hrange), Hai.
    rewrite (refusal_plain _ _ Hcommit). now rewrite He. }
  split; [|split; [|now split]].
  - intros [[l ->]|[items ->]]; now rewrite (Hchat SQLAlchemyError).
  - intros n -> Hn. rewrite (Hchat OverflowError); [reflexivity|].
    cbn. now rewrite Hn.
Qed.

(** X10.  In a chat turn whose history query the store runs, when the
    endpoint answers with a status of 400 or more, the caller of the
    service receives that very status, a message made of the fixed prefix
    and the endpoint's reason phrase, and the traceback lines; nothing is
    stored. *)
Theorem upstream_status_reaches_caller :
  forall env c w status reason body,
    int64 (chat_session_id c) = true ->
    store_fault env (SelectMessages (chat_session_id c)) = None ->
    aio_post env (List.length (calls w)) (chat_request env c (store w))
    = AioResponse status reason body ->
    400 <= status ->
    app env (PostChat c) w
    = (mk_response status
         (VDict [("message", VStr ("服务器错误" ++ reason));
                 ("exception_detail",
                  VList (map VStr (format_exc_lines
                                     env (HTTPException status reason))))]%string),
       after_call env c w)
    /\ store (after_call env c w) = store w.
Proof.
  intros env c w status reason body Hrange Hsel Hpost Hstatus.
  split; [|reflexivity].
  unfold app, route. rewrite chat_with_openai_eq. cbv zeta.
  rewrite (refusal_runs _ _ _ Hsel Hrange), upstream_reply_eq, Hpost.
  apply Z.leb_le in Hstatus. rewrite Hstatus. reflexivity.
Qed.

(** X11.  In a chat turn whose history query the store runs, when the
    endpoint answers below 400 with a JSON body in which
    [choices[0].message.content] cannot be looked up, the lookup fails with
    a KeyError, an IndexError or a TypeError, the turn raises 500 (with one
    detail for a missing key and another for the two other errors), and
    nothing is stored. *)
Theorem undecodable_reply_answers_500 :
  forall env c w status reason j e,
    int64 (chat_session_id c) = true ->
    store_fault env (SelectMessages (chat_session_id c)) = None ->
    aio_post env (List.length (calls w)) (chat_request env c (store w))
    = AioResponse status reason (BodyJson j) ->
    status < 400 ->
    reply_content j = Raise e ->
    (e = KeyError \/ e = IndexError \/ e = TypeError)
    /\ chat_with_openai env c w
       = (Raise (HTTPException 500
                   match e with
                   | KeyError => "数据库操作或API调用失败"
                   | _ => "与OpenAI通信时发生未知错误"
                   end),
          after_call env c w)
    /\ store (after_call env c w) = store w.
Proof.
  intros env c w status reason j e Hrange Hsel Hpost Hstatus Hreply.
  pose proof (reply_content_errors j e Hreply) as He.
  split; [exact He|]. split; [|reflexivity].
  rewrite chat_with_openai_eq. cbv zeta.
  rewrite (refusal_runs _ _ _ Hsel Hrange), upstream_reply_eq, Hpost.
  apply Z.leb_gt in Hstatus. rewrite Hstatus, Hreply.
  destruct He as [->|[->| ->]]; reflexivity.
Qed.

(** X12.  The lookup of [choices[0].message.content] succeeds exactly on a
    body that is an object whose [choices] is a list that starts with an
    object whose [message] is an object with a [content] item, and it
    returns that item untouched, whatever its type. *)
Theorem reply_content_shape :
  forall j x,
    reply_content j = Return x <->
    exists items choice rest msg,
      j = VDict items
      /\ dict_get items "choices" = Some (VList (VDict choice :: rest))
      /\ dict_get choice "message" = Some (VDict msg)
      /\ dict_get msg "content" = Some x.
Proof. exact reply_content_returns. Qed.

(** ** The completion clients *)

(** X13.  Whatever the endpoint does, each of the two clients either
    returns a decoded body or raises an [HTTPException]; no exception of
    the HTTP library leaves it, and it never touches the store. *)
Theorem clients_raise_only_http :
  forall env model messages key t mt tp fp pp w,
    (let r := async_call_openai_chat_api env model messages key
                                         t mt tp fp pp w in
     ((exists j, fst r = Return j)
      \/ (exists status detail, fst r = Raise (HTTPException status detail)))
     /\ store (snd r) = store w)
    /\ (let r := call_openai_chat_api env model messages key
                                      t mt tp fp pp w in
        ((exists j, fst r = Return j)
         \/ (exists status detail, fst r = Raise (HTTPException status detail)))
        /\ store (snd r) = store w).
Proof.
  intros env model messages key t mt tp fp pp w. split; cbv zeta.
  - split; [|apply call_logged_async].
    unfold async_call_openai_chat_api, aiohttp_round_trip. unfold_monad.
    destruct (aio_post _ _ _) as [status reason body| |]; cbn [fst].
    + destruct (400 <=? status); cbn [fst]; [right; now do 2 eexists|].
      destruct body; cbn [fst];
        [left; now eexists|right; now do 2 eexists..].
    + right; now do 2 eexists.
    + right; now do 2 eexists.
  - split; [|apply call_logged_sync].
    unfold call_openai_chat_api, requests_round_trip. unfold_monad.
    destruct (requests_post _ _) as [status text body| |]; cbn [fst].
    + destruct ((400 <=? status) && (status <? 600)); cbn [fst];
        [right; now do 2 eexists|].
      destruct body; cbn [fst];
        [left; now eexists|right; now do 2 eexists..].
    + right; now do 2 eexists.
    + right; now do 2 eexists.
Qed.

(** ** Failures after the commit *)

(** X14.  The answer of a chat turn is built after the commit.  With a
    store that fails no statement, when the endpoint's
    [choices[0].message.content] is a float that is not finite, building
    the answer fails: the turn raises 500 although the user's message and
    the reply are both in the store, the reply as NULL when it is NaN and
    as the text of the float otherwise. *)
Theorem chat_unrenderable_reply_is_stored :
  forall env c w status reason j x,
    reliable env ->
    int64 (chat_session_id c) = true ->
    aio_post env (List.length (calls w)) (chat_request env c (store w))
    = AioResponse status reason (BodyJson j) ->
    status < 400 ->
    completion_content j (VFloat x) ->
    finite_floats (VFloat x) = false ->
    exists u a,
      chat_with_openai env c w
      = (Raise (HTTPException 500 "与OpenAI通信时发生未知错误"),
         mk_world (mk_db (sessions (store w)) (messages (store w) ++ [u; a]))
                  (calls w ++ [mk_call (chat_request env c (store w)) (store w)]))
      /\ (session_id u = chat_session_id c
          /\ character_name u = "user"%string
          /\ message u = Some (user_message c))
      /\ (session_id a = chat_session_id c
          /\ character_name a = "assistant"%string
          /\ message a = match x with
                         | S754_nan => None
                         | _ => Some (float_text env x)
                         end).
Proof.
  intros env c w status reason j x Hreliable Hrange Hpost Hstatus Hj Hfin.
  assert (Hai : upstream_reply env c w = Return (VFloat x)).
  { apply upstream_reply_returns. now exists status, reason, j. }
  rewrite chat_with_openai_eq. cbv zeta.
  rewrite (refusal_runs _ _ _ (Hreliable _) Hrange), Hai.
  rewrite (refusal_plain _ _ (Hreliable (CommitNewMessages _))).
  unfold json_response, chat_ok. cbn [finite_floats] in *.
  destruct x; try discriminate; cbn [bind_text]; cbv zeta;
    rewrite (refusal_plain _ _ (Hreliable (RefreshMessage _)));
    rewrite (refusal_plain _ _ (Hreliable (RefreshMessage _)));
    cbn [finite_floats forallb snd andb];
    (do 2 eexists; split; [reflexivity|]; now repeat split).
Qed.

(** X20.  A session is stored before it is refreshed: when the store runs
    the commit of a new session and fails the refresh that follows,
    [create_session] raises (400 for an integrity fault, 500 for any other)
    although the new session is in the table. *)
Theorem create_session_refresh_failure_keeps_row :
  forall env nm w f,
    let i := next_rowid (map s_id (sessions (store w))) in
    store_fault env (CommitNewSession nm) = None ->
    store_fault env (RefreshSession i) = Some f ->
    (exists detail,
        fst (create_session env nm w)
        = Raise (HTTPException match f with
                               | IntegrityFault => 400
                               | _ => 500
                               end detail))
    /\ sessions (store (snd (create_session env nm w)))
       = sessions (store w) ++ [mk_session i true nm].
Proof.
  intros env nm w f i Hcommit Hrefresh. rewrite create_session_eq. cbv zeta.
  rewrite (refusal_plain _ _ Hcommit). cbn [s_id]. fold i.
  rewrite (refusal_fault _ _ [] f Hrefresh). cbn [fst snd store sessions].
  split; [|reflexivity]. destruct f; now eexists.
Qed.

(** X21.  The faults of the store are told apart as the routes' [except]
    clauses say.  When the store fails the commit of a new session,
    [create_session] raises 400 for an integrity fault and 500 for any
    other, and stores nothing.  When the store fails the query of
    [list_sessions], the route raises 503 for an operational fault and 500
    for any other. *)
Theorem store_faults_are_classified :
  forall env nm w f,
    (store_fault env (CommitNewSession nm) = Some f ->
     create_session env nm w
     = (Raise (HTTPException
                 match f with
                 | IntegrityFault => 400
                 | _ => 500
                 end
                 match f with
                 | IntegrityFault => "提供的数据违反了完整性约束"
                 | OperationalFault | DatabaseFault => "数据库查询执行失败"
                 | UnexpectedFault => "未知错误"
                 end), w))
    /\ (store_fault env SelectActiveSessions = Some f ->
        list_sessions env w
        = (Raise (HTTPException
                    match f with
                    | OperationalFault => 503
                    | _ => 500
                    end
                    match f with
                    | OperationalFault => "数据库服务不可用"
                    | IntegrityFault | DatabaseFault => "数据库查询执行失败"
                    | UnexpectedFault => "未知错误"
                    end), w)).
Proof.
  intros env nm w f. split; intros Hf.
  - rewrite create_session_eq, (refusal_fault _ _ [] f Hf). now destruct f.
  - rewrite list_sessions_eq, (refusal_fault _ _ [] f Hf). now destruct f.
Qed.

(** ** The desktop client *)

(** X15.  The error payloads that the service builds for the failures of
    its routes have no [detail] item: the service's message is in the
    [message] item, after the fixed prefix.  So whenever one of the six
    routes raises, whether for a row that is not found, a refused id, a
    fault of the store or a failure of the endpoint, the text the client
    shows is its fallback, "Unknown error occurred.", and not the message
    the service sent. *)
Theorem client_shows_fallback_error :
  forall env r w exc w',
    route env r w = (Raise exc, w') ->
    error_msg (content (fst (app env r w)))
    = Return (VStr "Unknown error occurred.").
Proof.
  intros env r w exc w' Hroute.
  destruct (route_raises_http env r w w' exc Hroute) as [status [detail ->]].
  unfold app. rewrite Hroute. reflexivity.
Qed.

Lemma spaceless_uint (d : Decimal.uint) :
  spaceless (NilEmpty.string_of_uint d) = true.
Proof. induction d; simpl; auto. Qed.

Lemma spaceless_str_int (n : Z) : spaceless (str_int n) = true.
Proof.
  unfold str_int, NilZero.string_of_int, NilZero.string_of_uint.
  destruct (Z.to_int n) as [d|d].
  - destruct d; try apply spaceless_uint; reflexivity.
  - destruct d; try (simpl; apply spaceless_uint); reflexivity.
Qed.

Lemma append_empty (s : string) : (s ++ "")%string = s.
Proof. induction s as [|ch s IH]; simpl; [reflexivity|now rewrite IH]. Qed.

Lemma append_snoc (s t : string) (ch : ascii) :
  ((s ++ String ch "") ++ t)%string = (s ++ String ch t)%string.
Proof. induction s as [|c s IH]; simpl; [reflexivity|now rewrite IH]. Qed.

Lemma split_from_label (d rest cur : string) :
  spaceless d = true ->
  split_from " - " 0 cur (d ++ " - " ++ rest)%string
  = (cur ++ d)%string :: split_from " - " 0 "" rest.
Proof.
  revert cur. induction d as [|ch d IH]; intros cur Hd.
  - simpl. replace (String.prefix "" rest) with true by (now destruct rest).
    now rewrite append_empty.
  - simpl in Hd. apply andb_true_iff in Hd. destruct Hd as [Hch Hd].
    apply negb_true_iff in Hch.
    change ((String ch d ++ " - " ++ rest)%string)
      with (String ch (d ++ " - " ++ rest)%string).
    cbn [split_from]. cbn [String.prefix].
    destruct (Ascii.ascii_dec " "%char ch) as [Heq|Hne].
    + subst ch. discriminate.
    + rewrite IH by exact Hd. f_equal. apply append_snoc.
Qed.

(** X16.  The client writes a session into its list as the id, " - " and
    the name, and later reads the id back as the text before the first
    " - ".  For every session row of the service this gives back the
    decimal text of the row's id, whatever the name is (absent, empty, or
    with " - " inside). *)
Theorem session_id_survives_label :
  forall other s,
    exists label,
      session_label other (session_item s) = Return label
      /\ selected_session_id label = Return (str_int (s_id s)).
Proof.
  intros other s. eexists. split; [reflexivity|].
  unfold selected_session_id, split. cbn [format].
  rewrite split_from_label by apply spaceless_str_int.
  reflexivity.
Qed.

(** ** A deleted message and the next turn *)

Lemma live_after_mark_deleted (sid mid : Z) (rows : list Message) :
  filter (live_message sid) (mark_deleted mid rows)
  = filter (fun m => live_message sid m && negb (id m =? mid)) rows.
Proof.
  induction rows as [|r rows IH]; simpl; [reflexivity|].
  destruct (id r =? mid) eqn:E; simpl.
  - unfold live_message at 1. simpl. rewrite andb_false_r.
    rewrite andb_false_r. exact IH.
  - rewrite andb_true_r. destruct (live_message sid r); now rewrite IH.
Qed.

Lemma live_rows_after_delete (env : Env) (sid mid : Z) (w : World)
      (r : JSONResponse) :
  wf_db (store w) ->
  fst (delete_message env mid w) = Return r ->
  filter (live_message sid)
         (messages (store (snd (delete_message env mid w))))
  = filter (fun m => live_message sid m && negb (id m =? mid))
           (messages (store w)).
Proof.
  intros [_ Hsorted]. rewrite delete_message_eq.
  case_refusal; [discriminate|].
  destruct (find _ _) as [m0|] eqn:Hfind; [|discriminate].
  apply find_some in Hfind. destruct Hfind as [Hin0 Hid0].
  apply Z.eqb_eq in Hid0.
  destruct (is_deleted m0) eqn:Hdel.
  - intros _. cbn [snd]. apply filter_ext_in. intros m Hm.
    destruct (id m =? mid) eqn:E; [|now rewrite andb_true_r].
    apply Z.eqb_eq in E. unfold live_message.
    rewrite (sorted_unique id _ Hsorted m m0 Hm Hin0) by congruence.
    rewrite Hdel. now rewrite !andb_false_r.
  - case_refusal; [discriminate|]. intros _. cbn [snd store messages].
    apply live_after_mark_deleted.
Qed.

(** X17.  In every state the service can reach, once a delete of a message
    id has succeeded, the history that the next chat turn sends to the
    endpoint (when the store runs the turn's history query) holds no entry
    for a message with that id: it is made of the other messages of the
    session that are not deleted, in table order, each as its role and
    text, followed by the new text. *)
Theorem deleted_message_leaves_history :
  forall env rs c mid r,
    let w := run env rs initial in
    let w1 := snd (delete_message env mid w) in
    fst (delete_message env mid w) = Return r ->
    int64 (chat_session_id c) = true ->
    store_fault env (SelectMessages (chat_session_id c)) = None ->
    exists rq,
      calls (snd (chat_with_openai env c w1))
      = calls w1 ++ [mk_call rq (store w1)]
      /\ getitem_key (req_json rq) "messages"
         = Return
             (VList
                (map sent_message
                     (filter (fun m => live_message (chat_session_id c) m
                                       && negb (id m =? mid))
                             (messages (store w)))
                 ++ [VDict [("role", VStr "user");
                            ("content", VStr (user_message c))]%string])).
Proof.
  intros env rs c mid r w w1 Hdel Hrange Hsel.
  exists (chat_request env c (store w1)).
  split; [apply chat_with_openai_calls; now apply refusal_runs|].
  unfold chat_request, getitem_key. cbn [req_json].
  change (dict_get (payload (model_name (config env))
                            (chat_history c (store w1))
                            None None None None None) "messages")
    with (Some (VList (chat_history c (store w1)))).
  cbv beta iota. unfold chat_history.
  rewrite (map_ext _ _ history_entry_sent).
  unfold w1.
  now rewrite (live_rows_after_delete env _ mid w r (reachable_wf env rs) Hdel).
Qed.

(** ** What a turn returns and sends *)

Lemma next_rowid_snoc (ids : list Z) :
  next_rowid (ids ++ [next_rowid ids]) = next_rowid ids + 1.
Proof.
  unfold next_rowid at 1. rewrite max_rowid_snoc; [reflexivity|].
  intros y Hy. apply next_rowid_fresh in Hy. lia.
Qed.

(** X18.  The two ids a successful chat turn returns are consecutive: the
    assistant's message id is the user's message id plus one. *)
Theorem chat_ids_are_consecutive :
  forall env c w r w',
    chat_with_openai env c w = (Return r, w') ->
    exists i,
      getitem_key (content r) "user_message_id" = Return (VInt i)
      /\ getitem_key (content r) "ai_message_id" = Return (VInt (i + 1))
      /\ (forall m, In m (messages (store w)) -> id m < i).
Proof.
  intros env c w r w' Hchat.
  destruct (chat_success_inv env c w w' r Hchat)
    as [ai [text [_ [_ [_ [-> _]]]]]].
  exists (next_rowid (map id (messages (store w)))).
  split; [reflexivity|]. split.
  - cbn. do 2 f_equal. rewrite map_app. cbn [map id].
    apply next_rowid_snoc.
  - intros m Hm. apply next_rowid_fresh. now apply in_map.
Qed.

(** X19.  When the store runs the history query of a chat turn, the request
    of the turn goes to the configured URL with a JSON content type and the
    configured key as bearer token, and its payload has two items only, the
    configured model and the messages: the route sets none of the optional
    generation parameters. *)
Theorem chat_request_is_minimal :
  forall env c w,
    int64 (chat_session_id c) = true ->
    store_fault env (SelectMessages (chat_session_id c)) = None ->
    exists rq history,
      calls (snd (chat_with_openai env c w))
      = calls w ++ [mk_call rq (store w)]
      /\ req_url rq = api_url (config env)
      /\ req_headers rq
         = [("Content-Type", "application/json");
            ("Authorization", "Bearer " ++ api_key (config env))]%string
      /\ req_json rq
         = VDict [("model", VStr (model_name (config env)));
                  ("messages", VList history)]%string.
Proof.
  intros env c w Hrange Hsel.
  exists (chat_request env c (store w)), (chat_history c (store w)).
  split; [apply chat_with_openai_calls; now apply refusal_runs|].
  now repeat split.
Qed.

(* ================================================================== *)
(** * The further properties at work *)

Lemma create_session_is_listed_witness :
  let env := Example.answering "world" in
  fst (create_session env (Some "Test"%string) initial)
  = Return (mk_response 201
              (VDict [("message", VStr "创建会话成功");
                      ("session_id", VInt 1);
                      ("session_name", VStr "Test")]%string))
  /\ fst (list_sessions env
            (snd (create_session env (Some "Test"%string) initial)))
     = Return (mk_response 200
                 (VDict [("message", VStr "获取所有会话id成功");
                         ("sessions",
                          VList [VDict [("session_id", VInt 1);
                                        ("session_name",
                                         VStr "Test")]])]%string)).
Proof.
  cbv zeta.
  destruct (create_session_is_listed
              (Example.answering "world") (Some "Test"%string) initial
              eq_refl eq_refl) as [Hanswer [_ [_ [_ Hlist]]]].
  split; [exact Hanswer|]. now rewrite (Hlist eq_refl).
Defined.

Lemma list_sessions_witness :
  store_fault (Example.answering "world") SelectActiveSessions = None
  /\ exists rows,
      list_sessions (Example.answering "world")
                    (run (Example.answering "world") Example.one_turn initial)
      = (Return (mk_response 200
                   (VDict [("message", VStr "获取所有会话id成功");
                           ("sessions",
                            VList (map shown_session rows))]%string)),
         run (Example.answering "world") Example.one_turn initial)
      /\ StronglySorted Z.lt (map s_id rows).
Proof.
  split; [reflexivity|].
  destruct (list_sessions_shows_active_by_id
              (Example.answering "world") Example.one_turn eq_refl)
    as [rows [Hlist [_ Hsorted]]].
  exists rows. split; [exact Hlist|exact Hsorted].
Defined.

Lemma delete_session_frame_witness :
  let env := Example.answering "world" in
  let w := run env Example.one_turn initial in
  find (fun r => s_id r =? 1) (sessions (store w))
  = Some (mk_session 1 true (Some "Test"%string))
  /\ messages (store (snd (delete_session env 1 w))) = messages (store w).
Proof.
  split; [reflexivity|].
  exact (proj1 (delete_session_frame
                  (Example.answering "world") 1
                  (run (Example.answering "world") Example.one_turn initial)
                  _ eq_refl)).
Defined.

Lemma chat_turn_is_listed_witness :
  let env := Example.answering "world" in
  let w := run env [PostSessions (Some "Test"%string)] initial in
  exists before i k stored,
    get_messages env 1 w
    = (Return (mk_response 200
                 (VDict [("message", VStr "获取指定会话中的所有消息成功");
                         ("messages", VList before)]%string)), w)
    /\ get_messages env 1 (snd (chat_with_openai env Example.hello w))
       = (Return
            (mk_response 200
               (VDict [("message", VStr "获取指定会话中的所有消息成功");
                       ("messages",
                        VList (before
                               ++ [VDict [("id", VInt i);
                                          ("character_name", VStr "user");
                                          ("message", VStr "hello")];
                                   VDict [("id", VInt k);
                                          ("character_name", VStr "assistant");
                                          ("message", stored)]]))]%string)),
          snd (chat_with_openai env Example.hello w))
    /\ stored = VStr "world".
Proof.
  cbv zeta.
  assert (Hex : exists s,
             In s (sessions (store (run (Example.answering "world")
                                        [PostSessions (Some "Test"%string)]
                                        initial)))
             /\ s_id s = chat_session_id Example.hello).
  { eexists. split; [left; reflexivity|reflexivity]. }
  destruct (chat_turn_is_listed
              (Example.answering "world") Example.hello
              (run (Example.answering "world")
                   [PostSessions (Some "Test"%string)] initial)
              _ _ eq_refl Hex eq_refl eq_refl)
    as [before [i [k [stored [Hbefore [Hafter [_ [_ Hstored]]]]]]]].
  exists before, i, k, stored.
  split; [exact Hbefore|]. split; [exact Hafter|].
  apply Hstored. reflexivity.
Defined.

Lemma chat_refused_reply_witness :
  completion_content (Replies.completion_of (VList [VStr "world"]))
                     (VList [VStr "world"])
  /\ chat_with_openai Replies.answering_list Example.hello initial
     = (Raise (HTTPException 500 "数据库操作或API调用失败"),
        after_call Replies.answering_list Example.hello initial)
  /\ store (after_call Replies.answering_list Example.hello initial)
     = store initial.
Proof.
  assert (Hj : completion_content
                 (Replies.completion_of (VList [VStr "world"]))
                 (VList [VStr "world"])).
  { unfold completion_content, Replies.completion_of.
    do 4 eexists. repeat split; reflexivity. }
  split; [exact Hj|].
  destruct (chat_refused_reply_persists_nothing
              Replies.answering_list Example.hello initial
              200 "OK" _ _ eq_refl eq_refl eq_refl eq_refl ltac:(lia) Hj)
    as [Hlist [_ [Hstore _]]].
  split; [|exact Hstore].
  apply Hlist. left. now eexists.
Defined.

Lemma upstream_status_witness :
  fst (app Example.unavailable (PostChat Example.hello) initial)
  = mk_response 503
      (VDict [("message", VStr "服务器错误Service Unavailable");
              ("exception_detail", VList (map VStr Example.traceback))]%string).
Proof.
  rewrite (proj1 (upstream_status_reaches_caller
                    Example.unavailable Example.hello initial
                    503 "Service Unavailable" (BodyJson VNone)
                    eq_refl eq_refl eq_refl ltac:(lia))).
  reflexivity.
Defined.

Lemma undecodable_reply_witness :
  reply_content (VDict []) = Raise KeyError
  /\ fst (chat_with_openai Replies.answering_empty_object Example.hello initial)
     = Raise (HTTPException 500 "数据库操作或API调用失败").
Proof.
  split; [reflexivity|].
  destruct (undecodable_reply_answers_500
              Replies.answering_empty_object Example.hello initial
              200 "OK" (VDict []) KeyError
              eq_refl eq_refl eq_refl ltac:(lia) eq_refl) as [_ [H _]].
  now rewrite H.
Defined.

Lemma chat_unrenderable_reply_witness :
  finite_floats Replies.infinity = false
  /\ (exists u a,
         chat_with_openai Replies.answering_infinity Example.hello initial
         = (Raise (HTTPException 500 "与OpenAI通信时发生未知错误"),
            mk_world (mk_db [] ([] ++ [u; a]))
                     ([] ++ [mk_call (chat_request Replies.answering_infinity
                                                   Example.hello (store initial))
                                     (store initial)]))
         /\ message a = Some "Inf"%string)
  /\ (exists u a,
         chat_with_openai Replies.answering_nan Example.hello initial
         = (Raise (HTTPException 500 "与OpenAI通信时发生未知错误"),
            mk_world (mk_db [] ([] ++ [u; a]))
                     ([] ++ [mk_call (chat_request Replies.answering_nan
                                                   Example.hello (store initial))
                                     (store initial)]))
         /\ message a = None).
Proof.
  assert (Hj : forall x,
             completion_content (Replies.completion_of x) x).
  { intros x. unfold completion_content, Replies.completion_of.
    do 4 eexists. repeat split; reflexivity. }
  split; [reflexivity|]. split.
  - destruct (chat_unrenderable_reply_is_stored
                Replies.answering_infinity Example.hello initial
                200 "OK" _ (S754_infinity false)
                (fun _ => eq_refl) eq_refl eq_refl ltac:(lia) (Hj _) eq_refl)
      as [u [a [Hchat [_ [_ [_ Ha]]]]]].
    exists u, a. split; [exact Hchat|exact Ha].
  - destruct (chat_unrenderable_reply_is_stored
                Replies.answering_nan Example.hello initial
                200 "OK" _ S754_nan
                (fun _ => eq_refl) eq_refl eq_refl ltac:(lia) (Hj _) eq_refl)
      as [u [a [Hchat [_ [_ [_ Ha]]]]]].
    exists u, a. split; [exact Hchat|exact Ha].
Defined.

Lemma client_shows_fallback_witness :
  route (Replies.faulty Replies.listing_unavailable) GetSessions initial
  = (Raise (HTTPException 503 "数据库服务不可用"), initial)
  /\ error_msg (content (fst (app (Replies.faulty Replies.listing_unavailable)
                                  GetSessions initial)))
     = Return (VStr "Unknown error occurred.").
Proof.
  split; [reflexivity|].
  exact (client_shows_fallback_error
           (Replies.faulty Replies.listing_unavailable) GetSessions initial
           _ _ eq_refl).
Defined.

Lemma deleted_message_leaves_history_witness :
  let env := Example.answering "world" in
  let w := run env Example.one_turn initial in
  exists rq,
    calls (snd (chat_with_openai env Example.hello
                                 (snd (delete_message env 1 w))))
    = calls (snd (delete_message env 1 w))
      ++ [mk_call rq (store (snd (delete_message env 1 w)))]
    /\ getitem_key (req_json rq) "messages"
       = Return (VList [VDict [("role", VStr "system");
                               ("content", VStr "world")];
                        VDict [("role", VStr "user");
                               ("content", VStr "hello")]]%string).
Proof.
  cbv zeta.
  destruct (deleted_message_leaves_history
              (Example.answering "world") Example.one_turn Example.hello 1
              _ eq_refl eq_refl eq_refl) as [rq [Hcalls Hmessages]].
  exists rq. split; [exact Hcalls|]. rewrite Hmessages. reflexivity.
Defined.

Lemma chat_ids_witness :
  exists i,
    getitem_key
      (chat_ok Example.user_row Example.assistant_row (VStr "world"))
      "user_message_id" = Return (VInt i)
    /\ getitem_key
         (chat_ok Example.user_row Example.assistant_row (VStr "world"))
         "ai_message_id" = Return (VInt (i + 1)).
Proof.
  destruct (chat_ids_are_consecutive
              (Example.answering "world") Example.hello initial
              (mk_response 200
                 (chat_ok Example.user_row Example.assistant_row (VStr "world")))
              _ eq_refl) as [i [Hu [Ha _]]].
  exists i. split; [exact Hu|exact Ha].
Defined.

Lemma chat_request_witness :
  exists rq history,
    calls (snd (chat_with_openai (Example.answering "world")
                                 Example.hello initial))
    = [] ++ [mk_call rq (store initial)]
    /\ req_json rq
       = VDict [("model", VStr "gpt-3.5-turbo");
                ("messages", VList history)]%string.
Proof.
  destruct (chat_request_is_minimal
              (Example.answering "world") Example.hello initial
              eq_refl eq_refl) as [rq [history [Hcalls [_ [_ Hjson]]]]].
  exists rq, history. split; [exact Hcalls|exact Hjson].
Defined.

Lemma create_session_refresh_witness :
  let env := Replies.faulty (fun s => match s with
                                      | RefreshSession _ => Some DatabaseFault
                                      | _ => None
                                      end) in
  (exists detail,
      fst (create_session env (Some "Test"%string) initial)
      = Raise (HTTPException 500 detail))
  /\ sessions (store (snd (create_session env (Some "Test"%string) initial)))
     = [] ++ [mk_session 1 true (Some "Test"%string)].
Proof.
  exact (create_session_refresh_failure_keeps_row
           (Replies.faulty (fun s => match s with
                                     | RefreshSession _ => Some DatabaseFault
                                     | _ => None
                                     end))
           (Some "Test"%string) initial DatabaseFault eq_refl eq_refl).
Defined.

Lemma store_faults_witness :
  create_session (Replies.faulty Replies.sessions_refused)
                 (Some "Test"%string) initial
  = (Raise (HTTPException 400 "提供的数据违反了完整性约束"), initial)
  /\ list_sessions (Replies.faulty Replies.listing_unavailable) initial
     = (Raise (HTTPException 503 "数据库服务不可用"), initial).
Proof.
  split.
  - exact (proj1 (store_faults_are_classified
                    (Replies.faulty Replies.sessions_refused)
                    (Some "Test"%string) initial IntegrityFault) eq_refl).
  - exact (proj2 (store_faults_are_classified
                    (Replies.faulty Replies.listing_unavailable)
                    None initial OperationalFault) eq_refl).
Defined.

Lemma chat_upstream_failure_witness :
  let w := run (Example.answering "world") Example.one_turn initial in
  failed_call
    (aio_post Example.unavailable (List.length (calls w))
              (chat_request Example.unavailable Example.hello (store w)))
    503
  /\ (exists detail,
        fst (chat_with_openai Example.unavailable Example.hello w)
        = Raise (HTTPException 503 detail))
  /\ store (snd (chat_with_openai Example.unavailable Example.hello w))
     = store w.
Proof.
  assert (Hfail : failed_call
                    (aio_post Example.unavailable
                       (List.length
                          (calls (run (Example.answering "world")
                                      Example.one_turn initial)))
                       (chat_request Example.unavailable Example.hello
                          (store (run (Example.answering "world")
                                      Example.one_turn initial))))
                    503).
  { apply failed_status. lia. }
  split; [exact Hfail|].
  destruct (proj1 (chat_upstream_failure_persists_nothing
                     Example.unavailable Example.hello
                     (run (Example.answering "world") Example.one_turn initial)
                     eq_refl eq_refl) 503 Hfail)
    as [_ [Hraise [Hstore _]]].
  split; [exact Hraise|exact Hstore].
Defined.
